(** * app.py: a Streamlit image+text chatbot that logs conversations in SQLite

    A shallow embedding of [app.py].  The script is rerun from its first line
    on every user interaction; one rerun is the function [app] below, a
    computation in a small state-and-exception monad over

    - the [conversations] table of [conversations.db],
    - the elements the script asks Streamlit to draw, and
    - the requests sent to the chat-completion endpoint.

    The Python standard library calls the script makes ([str.strip],
    [base64.b64encode], [base64.b64decode], [bytes.decode], [strftime]) are
    modelled concretely.  PIL, the OpenAI client and Streamlit's image widget
    are the fields of a [World]. *)

From Stdlib Require Import ZArith NArith List Sorting.Sorted Lia ZifyBool.
From Stdlib.Strings Require Import String Ascii Byte.
From Stdlib.Init Require Import Decimal.
From stdpp Require Import list strings gmap.

Local Open Scope N_scope.

(** ** Python values *)

(** A Python [str] is a sequence of Unicode code points. *)
Definition str : Type := list N.

(** A Python [bytes] object. *)
Definition bytes : Type := list byte.

(** The [str] a source literal denotes (the literals of [app.py] are ASCII). *)
Definition lit (s : string) : str :=
  map N_of_ascii (list_ascii_of_string s).

(** An exception object: its class and [str(e)]. *)
Record exception : Type := mkException
  { exc_class : string;
    exc_str : str }.

(** The outcome of a call that either returns or raises. *)
Inductive result (A : Type) : Type :=
| Ok (a : A)
| Raise (e : exception).
Arguments Ok {A} a.
Arguments Raise {A} e.

Definition result_map {A B : Type} (f : A -> B) (r : result A) : result B :=
  match r with
  | Ok a => Ok (f a)
  | Raise e => Raise e
  end.

Definition result_bind {A B : Type} (r : result A) (k : A -> result B) : result B :=
  match r with
  | Ok a => k a
  | Raise e => Raise e
  end.

(** [str(n)] for a non-negative [int]. *)
Fixpoint uint_str (d : Decimal.uint) : str :=
  match d with
  | Decimal.Nil => []
  | Decimal.D0 d => 48 :: uint_str d
  | Decimal.D1 d => 49 :: uint_str d
  | Decimal.D2 d => 50 :: uint_str d
  | Decimal.D3 d => 51 :: uint_str d
  | Decimal.D4 d => 52 :: uint_str d
  | Decimal.D5 d => 53 :: uint_str d
  | Decimal.D6 d => 54 :: uint_str d
  | Decimal.D7 d => 55 :: uint_str d
  | Decimal.D8 d => 56 :: uint_str d
  | Decimal.D9 d => 57 :: uint_str d
  end.

Definition str_of_N (n : N) : str := uint_str (N.to_uint n).

(** [str.isspace] on one code point (the Unicode white-space characters, as
    CPython's [_PyUnicode_IsWhitespace] lists them). *)
Definition isspace (c : N) : bool :=
  ((9 <=? c) && (c <=? 13))
  || ((28 <=? c) && (c <=? 32))
  || (c =? 133) || (c =? 160) || (c =? 5760)
  || ((8192 <=? c) && (c <=? 8202))
  || (c =? 8232) || (c =? 8233) || (c =? 8239) || (c =? 8287) || (c =? 12288).

Fixpoint lstrip (s : str) : str :=
  match s with
  | [] => []
  | c :: r => if isspace c then lstrip r else s
  end.

Definition rstrip (s : str) : str := rev (lstrip (rev s)).

(** [s.strip()] *)
Definition strip (s : str) : str := rstrip (lstrip s).

(** Truth value of a [str]: non-empty. *)
Definition str_truthy (s : str) : bool :=
  match s with
  | [] => false
  | _ :: _ => true
  end.

(** Truth value of [None] or an object that is always true. *)
Definition truthy {A : Type} (x : option A) : bool :=
  match x with
  | Some _ => true
  | None => false
  end.

(** An f-string field [{x}] where [x] is a [str] or [None]. *)
Definition fmt (x : option str) : str :=
  match x with
  | Some s => s
  | None => lit "None"
  end.

(** ** [bytes.decode("utf-8")] *)

Definition UnicodeDecodeError : exception :=
  mkException "UnicodeDecodeError" (lit "'utf-8' codec can't decode bytes").

Definition is_cont (n : N) : bool := (128 <=? n) && (n <=? 191).

Definition cons_ok (c : N) (r : result str) : result str := result_map (cons c) r.

Fixpoint utf8_decode (bs : bytes) : result str :=
  match bs with
  | [] => Ok []
  | b0 :: r0 =>
    let n0 := Byte.to_N b0 in
    if n0 <? 128 then cons_ok n0 (utf8_decode r0) else
    match r0 with
    | [] => Raise UnicodeDecodeError
    | b1 :: r1 =>
      let n1 := Byte.to_N b1 in
      if (194 <=? n0) && (n0 <=? 223) then
        if is_cont n1
        then cons_ok ((n0 - 192) * 64 + (n1 - 128)) (utf8_decode r1)
        else Raise UnicodeDecodeError
      else
      match r1 with
      | [] => Raise UnicodeDecodeError
      | b2 :: r2 =>
        let n2 := Byte.to_N b2 in
        if (224 <=? n0) && (n0 <=? 239) then
          if is_cont n1 && is_cont n2
             && (negb (n0 =? 224) || (160 <=? n1))
             && (negb (n0 =? 237) || (n1 <=? 159))
          then cons_ok ((n0 - 224) * 4096 + (n1 - 128) * 64 + (n2 - 128))
                       (utf8_decode r2)
          else Raise UnicodeDecodeError
        else
        match r2 with
        | [] => Raise UnicodeDecodeError
        | b3 :: r3 =>
          let n3 := Byte.to_N b3 in
          if (240 <=? n0) && (n0 <=? 244)
             && is_cont n1 && is_cont n2 && is_cont n3
             && (negb (n0 =? 240) || (144 <=? n1))
             && (negb (n0 =? 244) || (n1 <=? 143))
          then cons_ok ((n0 - 240) * 262144 + (n1 - 128) * 4096
                        + (n2 - 128) * 64 + (n3 - 128))
                       (utf8_decode r3)
          else Raise UnicodeDecodeError
        end
      end
    end
  end.

(** ** [base64] *)

Definition byte_of_N (n : N) : byte :=
  match Byte.of_N n with
  | Some b => b
  | None => Byte.x00
  end.

(** [=] *)
Definition BASE64_PAD : N := 61.

(** The alphabet [A-Z a-z 0-9 + /], by index. *)
Definition table_b2a_base64 (i : N) : N :=
  if i <? 26 then 65 + i
  else if i <? 52 then 97 + (i - 26)
  else if i <? 62 then 48 + (i - 52)
  else if i =? 62 then 43
  else 47.

(** The inverse table; [None] for a byte outside the alphabet. *)
Definition table_a2b_base64 (c : N) : option N :=
  if (65 <=? c) && (c <=? 90) then Some (c - 65)
  else if (97 <=? c) && (c <=? 122) then Some (c - 97 + 26)
  else if (48 <=? c) && (c <=? 57) then Some (c - 48 + 52)
  else if c =? 43 then Some 62
  else if c =? 47 then Some 63
  else None.

Definition b64_digit (i : N) : byte := byte_of_N (table_b2a_base64 i).

(** [base64.b64encode(s)]: [binascii.b2a_base64(s, newline=False)]. *)
Fixpoint b64encode (s : bytes) : bytes :=
  match s with
  | [] => []
  | [x] =>
    let a := Byte.to_N x in
    [b64_digit (a / 4); b64_digit (a mod 4 * 16);
     byte_of_N BASE64_PAD; byte_of_N BASE64_PAD]
  | [x; y] =>
    let a := Byte.to_N x in
    let b := Byte.to_N y in
    [b64_digit (a / 4); b64_digit (a mod 4 * 16 + b / 16);
     b64_digit (b mod 16 * 4); byte_of_N BASE64_PAD]
  | x :: y :: z :: r =>
    let a := Byte.to_N x in
    let b := Byte.to_N y in
    let c := Byte.to_N z in
    b64_digit (a / 4) :: b64_digit (a mod 4 * 16 + b / 16)
    :: b64_digit (b mod 16 * 4 + c / 64) :: b64_digit (c mod 64)
    :: b64encode r
  end.

Definition binascii_Error (msg : str) : exception :=
  mkException "binascii.Error" msg.

(** [binascii.a2b_base64] in its default, non-strict mode: bytes outside the
    alphabet are skipped, a complete pad sequence ends the parse, and a
    dangling quad is an error.  [out] is the output so far, last byte first. *)
Fixpoint a2b_base64_loop (s : bytes) (quad_pos leftchar pads : N) (out : bytes)
  : result bytes :=
  match s with
  | [] =>
    match quad_pos with
    | 0 => Ok (rev out)
    | 1 =>
      Raise (binascii_Error
               (lit "Invalid base64-encoded string: number of data characters ("
                ++ str_of_N (N.of_nat (length out) / 3 * 4 + 1)
                ++ lit ") cannot be 1 more than a multiple of 4"))
    | _ => Raise (binascii_Error (lit "Incorrect padding"))
    end
  | ch :: r =>
    let this_ch := Byte.to_N ch in
    if this_ch =? BASE64_PAD then
      if 2 <=? quad_pos then
        if 4 <=? quad_pos + (pads + 1)
        then Ok (rev out)
        else a2b_base64_loop r quad_pos leftchar (pads + 1) out
      else a2b_base64_loop r quad_pos leftchar pads out
    else
      match table_a2b_base64 this_ch with
      | None => a2b_base64_loop r quad_pos leftchar pads out
      | Some v =>
        match quad_pos with
        | 0 => a2b_base64_loop r 1 v 0 out
        | 1 => a2b_base64_loop r 2 (v mod 16) 0
                 (byte_of_N (leftchar * 4 + v / 16) :: out)
        | 2 => a2b_base64_loop r 3 (v mod 4) 0
                 (byte_of_N (leftchar * 16 + v / 4) :: out)
        | _ => a2b_base64_loop r 0 0 0
                 (byte_of_N (leftchar * 64 + v) :: out)
        end
      end
  end.

Definition a2b_base64 (s : bytes) : result bytes := a2b_base64_loop s 0 0 0 [].

(** [base64.b64decode(s)] on a [str]: the string is first encoded as ASCII
    ([ValueError] when it cannot be), then decoded without validation. *)
Definition b64decode (s : str) : result bytes :=
  if forallb (fun c => c <? 128) s
  then a2b_base64 (map byte_of_N s)
  else Raise (mkException "ValueError"
                (lit "string argument should contain only ASCII characters")).

(** ** [datetime.now().strftime("%Y-%m-%d %H:%M:%S")] *)

Record datetime : Type := mkDatetime
  { year : N; month : N; day : N; hour : N; minute : N; second : N }.

(** [s.zfill(w)] on a string of digits. *)
Definition zfill (w : nat) (s : str) : str :=
  replicate (w - length s)%nat 48 ++ s.

Definition strftime (d : datetime) : str :=
  zfill 4 (str_of_N (year d)) ++ lit "-" ++ zfill 2 (str_of_N (month d))
  ++ lit "-" ++ zfill 2 (str_of_N (day d)) ++ lit " "
  ++ zfill 2 (str_of_N (hour d)) ++ lit ":" ++ zfill 2 (str_of_N (minute d))
  ++ lit ":" ++ zfill 2 (str_of_N (second d)).

(** ** The chat-completion request *)

Inductive content_part : Type :=
| TextPart (text : str)           (* {"type": "text", "text": ...} *)
| ImageUrlPart (url : str).       (* {"type": "image_url", "image_url": {"url": ...}} *)

Record message : Type := mkMessage
  { role : str;
    content : list content_part }.

Record request : Type := mkRequest
  { model : str;
    messages : list message;
    max_tokens : N }.

(** The client object: [OpenAI(api_key=...)]. *)
Record OpenAI : Type := mkOpenAI
  { api_key : str }.

(** [load_model()]; the module-level [API_KEY] it reads is passed in. *)
Definition load_model (API_KEY : str) : OpenAI := mkOpenAI API_KEY.

(** ** The world outside the script

    [Image_open] is [PIL.Image.open] on a byte stream, [Image_save_png] is
    [Image.save(buf, format="PNG")] followed by [buf.getvalue()], [st_image]
    is Streamlit's image widget, and [chat_completions_create key req] is
    [OpenAI(api_key=key).chat.completions.create(...)] followed by
    [.choices[0].message.content].  Each may raise.

    Scope of the model: an image is a value, so [Image_save_png] answers the
    same way each time it is asked about the same image (an error Pillow
    raises only the first time it decodes a damaged file is not modelled),
    and the content of a reply is a string, as the return annotation of
    [analyze_image_with_prompt] has it. *)
Record World : Type := mkWorld
  { Image : Type;
    Image_open : bytes -> result Image;
    Image_save_png : Image -> result bytes;
    Image_mode : Image -> string;
    Image_size : Image -> N * N;
    Image_tobytes : Image -> bytes;
    st_image : Image -> result unit;
    chat_completions_create : str -> request -> result str }.

(** Two images with the same pixels. *)
Definition same_pixels (W : World) (a b : Image W) : Prop :=
  Image_mode W a = Image_mode W b
  /\ Image_size W a = Image_size W b
  /\ Image_tobytes W a = Image_tobytes W b.

(** Reading a PNG file that the writer produced gives back the pixels. *)
Definition png_lossless (W : World) : Prop :=
  forall (im : Image W) (data : bytes),
    Image_save_png W im = Ok data ->
    exists im', Image_open W data = Ok im' /\ same_pixels W im' im.

(** The PNG writer never returns an empty file. *)
Definition png_nonempty (W : World) : Prop :=
  forall (im : Image W), Image_save_png W im <> Ok [].

(** ** Widget state of one rerun *)

(** [st.file_uploader(..., type=["png", "jpg", "jpeg"])] *)
Inductive upload_type : Type := png | jpg | jpeg.

Record UploadedFile : Type := mkUploadedFile
  { file_type : upload_type;
    file_data : bytes }.

Record widgets : Type := mkWidgets
  { prompt_text : str;                       (* st.text_area, key="user_prompt" *)
    uploaded_image : option UploadedFile;    (* st.file_uploader, key="uploaded_image" *)
    send_clicked : bool;                     (* st.button("Send") *)
    load_all_clicked : bool }.               (* st.sidebar.button("Load All") *)

(** ** The [conversations] table *)

Record row : Type := mkRow
  { id : Z;
    user_prompt : option str;
    base64_image : option str;
    bot_response : option str;
    timestamp : option str }.

(** The rows in the order they were inserted, and the largest rowid ever
    handed out (the table's entry in [sqlite_sequence]). *)
Record table : Type := mkTable
  { rows : list row;
    sqlite_sequence : Z }.

Definition empty_table : table := mkTable [] 0.

Definition max_rowid (l : list row) : Z := foldr (fun r m => Z.max (id r) m) 0%Z l.

(** The largest rowid SQLite hands out; beyond it an insert is refused. *)
Definition SQLITE_MAX_ROWID : Z := 9223372036854775807.

(** The rowid [INTEGER PRIMARY KEY AUTOINCREMENT] gives to the next row.
    SQLite refuses the insert once this exceeds [SQLITE_MAX_ROWID]; the
    script, starting from an empty table, does not get there, and a
    statement about an arbitrary table assumes the rowid is in range. *)
Definition next_rowid (t : table) : Z :=
  (Z.max (sqlite_sequence t) (max_rowid (rows t)) + 1)%Z.

(** [INSERT INTO conversations (user_prompt, base64_image, bot_response,
    timestamp) VALUES (?, ?, ?, ?)] *)
Definition insert_row (t : table) (p b r ts : option str) : table :=
  mkTable (rows t ++ [mkRow (next_rowid t) p b r ts]) (next_rowid t).

Fixpoint insert_desc (r : row) (l : list row) : list row :=
  match l with
  | [] => [r]
  | x :: l' => if (id x <? id r)%Z then r :: l else x :: insert_desc r l'
  end.

(** [ORDER BY id DESC] *)
Definition order_by_id_desc (l : list row) : list row := foldr insert_desc [] l.

(** One fetched tuple: [(user_prompt, base64_image, bot_response, timestamp)]. *)
Definition record : Type := option str * option str * option str * option str.

Definition columns (r : row) : record :=
  (user_prompt r, base64_image r, bot_response r, timestamp r).

(** [SELECT user_prompt, base64_image, bot_response, timestamp
    FROM conversations ORDER BY id DESC] *)
Definition select_desc (t : table) : list record :=
  map columns (order_by_id_desc (rows t)).

(** ** The script *)

(** How a computation ends: it returns, raises, or calls [st.stop()]. *)
Inductive outcome (A : Type) : Type :=
| Ret (a : A)
| Exc (e : exception)
| Halt.
Arguments Ret {A} a.
Arguments Exc {A} e.
Arguments Halt {A}.

Section App.

Variable W : World.

(** What the script asks Streamlit to draw. *)
Inductive element : Type :=
| Title (s : str)
| Text (s : str)                       (* st.write *)
| TextArea (label : str)
| FileUploader (label : str)
| Button (label : str)
| Spinner (s : str)
| Subheader (s : str)
| ErrorBox (s : str)                   (* st.error *)
| WarningBox (s : str)                 (* st.warning *)
| SidebarHeader (s : str)
| SidebarButton (label : str)
| SidebarMarkdown (s : str)
| SidebarImage (img : Image W) (caption : str)
| SidebarText (s : str).               (* st.sidebar.write *)

(** [db] is [None] while [conversations.db] has no [conversations] table.
    [ui] and [api] list the elements drawn and the requests sent, most
    recent first. *)
Record state : Type := mkState
  { db : option table;
    ui : list element;
    api : list (str * request) }.

Definition M (A : Type) : Type := state -> outcome A * state.

Definition ret {A : Type} (a : A) : M A := fun s => (Ret a, s).

Definition bind {A B : Type} (m : M A) (k : A -> M B) : M B :=
  fun s =>
    match m s with
    | (Ret a, s') => k a s'
    | (Exc e, s') => (Exc e, s')
    | (Halt, s') => (Halt, s')
    end.

Notation "'let*' x ':=' m 'in' k" := (bind m (fun x => k))
  (at level 10, x name, m at level 100, k at level 200).

Definition lift {A : Type} (r : result A) : M A :=
  fun s =>
    match r with
    | Ok a => (Ret a, s)
    | Raise e => (Exc e, s)
    end.

(** [try: m except Exception as e: h e] *)
Definition try_except {A : Type} (m : M A) (h : exception -> M A) : M A :=
  fun s =>
    match m s with
    | (Exc e, s') => h e s'
    | r => r
    end.

Definition draw (e : element) : M unit :=
  fun s => (Ret tt, mkState (db s) (e :: ui s) (api s)).

Definition st_stop : M unit := fun s => (Halt, s).

(** [st.secrets[key]] *)
Definition secrets_getitem (secrets : option (gmap string str)) (key : string)
  : result str :=
  match secrets with
  | None =>
    Raise (mkException "FileNotFoundError" (lit "No secrets files found."))
  | Some m =>
    match m !! key with
    | Some v => Ok v
    | None => Raise (mkException "KeyError" (lit key))
    end
  end.

(** [CREATE TABLE IF NOT EXISTS conversations (...)] *)
Definition create_table_if_not_exists : M unit :=
  fun s =>
    match db s with
    | Some _ => (Ret tt, s)
    | None => (Ret tt, mkState (Some empty_table) (ui s) (api s))
    end.

Definition no_such_table : exception :=
  mkException "sqlite3.OperationalError" (lit "no such table: conversations").

Definition execute_insert (p b r ts : option str) : M unit :=
  fun s =>
    match db s with
    | Some t => (Ret tt, mkState (Some (insert_row t p b r ts)) (ui s) (api s))
    | None => (Exc no_such_table, s)
    end.

Definition save_conversation (now : datetime)
    (user_prompt : str) (base64_image : option str) (bot_response : str)
  : M unit :=
  let timestamp_str := strftime now in
  execute_insert (Some user_prompt) base64_image (Some bot_response)
                 (Some timestamp_str).

Definition load_conversations : M (list record) :=
  fun s =>
    match db s with
    | Some t => (Ret (select_desc t), s)
    | None => (Exc no_such_table, s)
    end.

Definition encode_image_to_base64 (pil_image : Image W) : result str :=
  result_bind (Image_save_png W pil_image)
    (fun buffered => utf8_decode (b64encode buffered)).

(** [encode_image_to_base64(image) if image else None] *)
Definition encode_optional (image : option (Image W)) : result (option str) :=
  match image with
  | Some im => result_map Some (encode_image_to_base64 im)
  | None => Ok None
  end.

Definition content_list (prompt : str) (base64_image : option str)
  : list content_part :=
  TextPart prompt ::
  match base64_image with
  | Some (c :: s) => [ImageUrlPart (lit "data:image/png;base64," ++ c :: s)]
  | _ => []
  end.

Definition build_request (prompt : str) (base64_image : option str) : request :=
  mkRequest (lit "gpt-4o-mini")
            [mkMessage (lit "user") (content_list prompt base64_image)]
            300.

(** [client.chat.completions.create(...)], then
    [response.choices[0].message.content]. *)
Definition create (client : OpenAI) (req : request) : M str :=
  fun s =>
    let s' := mkState (db s) (ui s) ((api_key client, req) :: api s) in
    match chat_completions_create W (api_key client) req with
    | Ok r => (Ret r, s')
    | Raise e => (Exc e, s')
    end.

Definition analyze_image_with_prompt (API_KEY : str)
    (image : option (Image W)) (prompt : str) : M str :=
  let client := load_model API_KEY in
  let* base64_image := lift (encode_optional image) in
  create client (build_request prompt base64_image).

(** The [try]/[except] around [Image.open(uploaded_file)]. *)
Definition read_upload (uploaded_file : option UploadedFile)
  : M (option (Image W)) :=
  match uploaded_file with
  | Some f =>
    try_except
      (let* im := lift (Image_open W (file_data f)) in ret (Some im))
      (fun e =>
         let* _ := draw (ErrorBox (lit "Error reading image: " ++ exc_str e)) in
         ret None)
  | None => ret None
  end.

(** The body of [if st.button("Send"):]. *)
Definition on_send (API_KEY : str) (now : datetime)
    (prompt : str) (image_obj : option (Image W)) : M unit :=
  if negb (str_truthy (strip prompt)) && negb (truthy image_obj)
  then draw (WarningBox (lit "Please provide a prompt or an image."))
  else
    let* _ := draw (Spinner (lit "Analyzing...")) in
    let* bot_response :=
      try_except (analyze_image_with_prompt API_KEY image_obj prompt)
                 (fun e => ret (lit "Error: " ++ exc_str e)) in
    let* _ := draw (Subheader (lit "Response:")) in
    let* _ := draw (Text bot_response) in
    let* base64_img := lift (encode_optional image_obj) in
    save_conversation now prompt base64_img bot_response.

(** The [try]/[except Exception: pass] that shows a stored image. *)
Definition show_stored_image (base64_img : str) : M unit :=
  try_except
    (let* img_data := lift (b64decode base64_img) in
     let* img := lift (Image_open W img_data) in
     let* _ := lift (st_image W img) in
     draw (SidebarImage img (lit "Uploaded Image")))
    (fun _ => ret tt).

(** One turn of the [for idx, convo in enumerate(all_convos, start=1)] loop. *)
Definition render_convo (idx : N) (convo : record) : M unit :=
  let '(user_prompt, base64_img, bot_resp, timestamp) := convo in
  let* _ := draw (SidebarMarkdown
                    (lit "**" ++ str_of_N idx ++ lit ". Timestamp**: "
                     ++ fmt timestamp)) in
  let* _ := draw (SidebarMarkdown (lit "**User Prompt**: " ++ fmt user_prompt)) in
  let* _ :=
    match base64_img with
    | Some (c :: s) => show_stored_image (c :: s)
    | _ => ret tt
    end in
  let* _ := draw (SidebarMarkdown (lit "**Bot Response**: " ++ fmt bot_resp)) in
  draw (SidebarText (lit "---")).

Fixpoint render_all (idx : N) (all_convos : list record) : M unit :=
  match all_convos with
  | [] => ret tt
  | convo :: rest =>
    let* _ := render_convo idx convo in
    render_all (idx + 1) rest
  end.

(** The body of [if st.sidebar.button("Load All"):]. *)
Definition on_load_all : M unit :=
  let* all_convos := load_conversations in
  match all_convos with
  | [] => draw (SidebarText (lit "No conversations found."))
  | _ :: _ => render_all 1 all_convos
  end.

Definition main (API_KEY : str) (now : datetime) (w : widgets) : M unit :=
  let* _ := draw (Title (lit "Simple Image+Text Chatbot with SQLite")) in
  let* _ := draw (Text (lit "A Streamlit chatbot that can optionally handle images and stores conversations in SQLite.")) in
  let* _ := draw (TextArea (lit "Enter your prompt:")) in
  let prompt := prompt_text w in
  let* _ := draw (FileUploader (lit "Upload an image (optional)")) in
  let* image_obj := read_upload (uploaded_image w) in
  let* _ := draw (Button (lit "Send")) in
  let* _ := if send_clicked w then on_send API_KEY now prompt image_obj
            else ret tt in
  let* _ := draw (SidebarHeader (lit "View Stored Conversations")) in
  let* _ := draw (SidebarButton (lit "Load All")) in
  if load_all_clicked w then on_load_all else ret tt.

(** The module body: read the key, stop when it is empty, open the database
    and create the table, then call [main]. *)
Definition app (secrets : option (gmap string str)) (now : datetime)
    (w : widgets) : M unit :=
  let* API_KEY := lift (secrets_getitem secrets "OPENAI_API_KEY") in
  if negb (str_truthy API_KEY) then
    let* _ := draw (ErrorBox (lit "OpenAI API key not found. Please set OPENAI_API_KEY in .env or environment variables.")) in
    st_stop
  else
    let* _ := create_table_if_not_exists in
    main API_KEY now w.

(** One rerun of the script against the database file [d]. *)
Definition run (secrets : option (gmap string str)) (now : datetime)
    (w : widgets) (d : option table) : outcome unit * state :=
  app secrets now w (mkState d [] []).

End App.


(** The database files the script can leave behind, starting from a file
    without the table. *)
Inductive reachable (W : World) : option table -> Prop :=
| reachable_fresh : reachable W None
| reachable_run (secrets : option (gmap string str)) (now : datetime)
    (w : widgets) (d : option table) :
    reachable W d -> reachable W (db W (run W secrets now w d).2).

(** Rowids grow with insertion order. *)
Definition rowids_increasing (l : list row) : Prop :=
  StronglySorted (fun a b => (id a < id b)%Z) l.

Definition table_ok (t : table) : Prop :=
  rowids_increasing (rows t)
  /\ Forall (fun r => exists ts, timestamp r = Some ts /\ ts <> []) (rows t).

(** The elements a rerun drew and the requests it sent, oldest first. *)
Definition drawn (W : World) (r : outcome unit * state W) : list (element W) :=
  rev (ui W r.2).

Definition sent (W : World) (r : outcome unit * state W) : list (str * request) :=
  rev (api W r.2).

(** ** Vocabulary of the properties *)

(** Empty or white space only. *)
Definition blank (s : str) : Prop := Forall (fun c => isspace c = true) s.

(** The bytes of an ASCII literal. *)
Definition ascii_bytes (s : string) : bytes := map byte_of_N (lit s).

(** The text [b64encode(data).decode("utf-8")]. *)
Definition base64_text (data : bytes) : str := map Byte.to_N (b64encode data).

(** [image_obj] after the upload has been read: the opened image, or [None]
    when nothing was uploaded or [Image.open] raised. *)
Definition opened (W : World) (f : option UploadedFile) : option (Image W) :=
  match f with
  | Some f =>
    match Image_open W (file_data f) with
    | Ok im => Some im
    | Raise _ => None
    end
  | None => None
  end.

(** The Send action takes the submission: the prompt is not blank or there
    is an image. *)
Definition accepted (W : World) (w : widgets) : bool :=
  str_truthy (strip (prompt_text w)) || truthy (opened W (uploaded_image w)).

(** What ends up as the bot response: the endpoint's answer, or the text of
    the exception it raised after [Error: ]. *)
Definition reply (W : World) (api_key : str) (req : request) : str :=
  match chat_completions_create W api_key req with
  | Ok r => r
  | Raise e => lit "Error: " ++ exc_str e
  end.

(** What the history loop does with a stored image: decode the base64 text,
    open the bytes, hand the image to the widget. *)
Definition decode_stored (W : World) (s : str) : result (Image W) :=
  result_bind (b64decode s) (fun img_data =>
  result_bind (Image_open W img_data) (fun img =>
  result_map (fun _ => img) (st_image W img))).

(** The elements drawn for the [idx]-th fetched record, oldest first. *)
Definition convo_elements (W : World) (idx : N) (convo : record)
  : list (element W) :=
  let '(user_prompt, base64_img, bot_resp, timestamp) := convo in
  [SidebarMarkdown W (lit "**" ++ str_of_N idx ++ lit ". Timestamp**: "
                      ++ fmt timestamp);
   SidebarMarkdown W (lit "**User Prompt**: " ++ fmt user_prompt)]
  ++ match base64_img with
     | Some (c :: s) =>
       match decode_stored W (c :: s) with
       | Ok img => [SidebarImage W img (lit "Uploaded Image")]
       | Raise _ => []
       end
     | _ => []
     end
  ++ [SidebarMarkdown W (lit "**Bot Response**: " ++ fmt bot_resp);
      SidebarText W (lit "---")].

Fixpoint history_elements (W : World) (idx : N) (all_convos : list record)
  : list (element W) :=
  match all_convos with
  | [] => []
  | convo :: rest =>
    convo_elements W idx convo ++ history_elements W (idx + 1) rest
  end.

(** The elements the Load All action draws for the table [t]. *)
Definition load_all_elements (W : World) (t : table) : list (element W) :=
  match select_desc t with
  | [] => [SidebarText W (lit "No conversations found.")]
  | convo :: rest => history_elements W 1 (convo :: rest)
  end.

(** The elements drawn down to the Send button, oldest first. *)
Definition header_elements (W : World) (w : widgets) : list (element W) :=
  [Title W (lit "Simple Image+Text Chatbot with SQLite");
   Text W (lit "A Streamlit chatbot that can optionally handle images and stores conversations in SQLite.");
   TextArea W (lit "Enter your prompt:");
   FileUploader W (lit "Upload an image (optional)")]
  ++ match uploaded_image w with
     | Some f =>
       match Image_open W (file_data f) with
       | Ok _ => []
       | Raise e => [ErrorBox W (lit "Error reading image: " ++ exc_str e)]
       end
     | None => []
     end
  ++ [Button W (lit "Send")].

(** The elements drawn from the sidebar header on, for the table [t]. *)
Definition sidebar_elements (W : World) (w : widgets) (t : table)
  : list (element W) :=
  [SidebarHeader W (lit "View Stored Conversations");
   SidebarButton W (lit "Load All")]
  ++ (if load_all_clicked w then load_all_elements W t else []).

(** The rows of a database file. *)
Definition rows_of (d : option table) : list row :=
  match d with
  | Some t => rows t
  | None => []
  end.

(** The table the script works on once [CREATE TABLE IF NOT EXISTS] ran. *)
Definition table_of (d : option table) : table :=
  match d with
  | Some t => t
  | None => empty_table
  end.

(** The secret storage holds a non-empty API key. *)
Definition has_key (secrets : option (gmap string str)) (k : str) : Prop :=
  exists m, secrets = Some m /\ m !! "OPENAI_API_KEY"%string = Some k /\ k <> [].

(** The secret storage has no entry for the API key. *)
Definition key_absent (secrets : option (gmap string str)) : Prop :=
  match secrets with
  | Some m => m !! "OPENAI_API_KEY"%string = None
  | None => True
  end.


(** ** A small world to run the script in

    Image files are a magic byte ([0x89] for PNG, [0xFF] for JPEG), a mode
    tag, the width and height, and the pixel bytes.  As in PIL, an image in
    mode [CMYK] (which a JPEG file can hold) cannot be written as PNG. *)

Inductive pil_mode : Type := L | RGB | RGBA | CMYK.

Record toy_image : Type := mkToyImage
  { toy_mode : pil_mode;
    toy_width : byte;
    toy_height : byte;
    toy_data : bytes }.

Definition mode_tag (m : pil_mode) : byte :=
  match m with
  | L => Byte.x00
  | RGB => Byte.x01
  | RGBA => Byte.x02
  | CMYK => Byte.x03
  end.

Definition tag_mode (b : byte) : option pil_mode :=
  match Byte.to_N b with
  | 0 => Some L
  | 1 => Some RGB
  | 2 => Some RGBA
  | 3 => Some CMYK
  | _ => None
  end.

Definition mode_name (m : pil_mode) : string :=
  match m with
  | L => "L"
  | RGB => "RGB"
  | RGBA => "RGBA"
  | CMYK => "CMYK"
  end.

Definition UnidentifiedImageError : exception :=
  mkException "PIL.UnidentifiedImageError" (lit "cannot identify image file").

Definition toy_open (data : bytes) : result toy_image :=
  match data with
  | magic :: tag :: w :: h :: px =>
    if (Byte.to_N magic =? 137) || (Byte.to_N magic =? 255) then
      match tag_mode tag with
      | Some m => Ok (mkToyImage m w h px)
      | None => Raise UnidentifiedImageError
      end
    else Raise UnidentifiedImageError
  | _ => Raise UnidentifiedImageError
  end.

Definition toy_save_png (im : toy_image) : result bytes :=
  match toy_mode im with
  | CMYK => Raise (mkException "OSError" (lit "cannot write mode CMYK as PNG"))
  | m => Ok (Byte.x89 :: mode_tag m :: toy_width im :: toy_height im :: toy_data im)
  end.

Definition connection_error : exception :=
  mkException "openai.APIConnectionError" (lit "Connection error.").

(** The endpoint answers when [api_up], and the connection fails otherwise. *)
Definition toy_chat (api_up : bool) (api_key : str) (req : request) : result str :=
  if api_up then Ok (lit "Hello!") else Raise connection_error.

Definition toy_world (api_up : bool) : World :=
  mkWorld toy_image toy_open toy_save_png
          (fun im => mode_name (toy_mode im))
          (fun im => (Byte.to_N (toy_width im), Byte.to_N (toy_height im)))
          toy_data
          (fun _ => Ok tt)
          (toy_chat api_up).

Definition toy_secrets : option (gmap string str) :=
  Some {[ "OPENAI_API_KEY"%string := lit "sk-test" ]}.

Definition toy_now : datetime := mkDatetime 2024 3 9 14 5 7.

(** A 1x1 greyscale PNG upload and a 1x1 CMYK JPEG upload. *)
Definition grey_png : UploadedFile :=
  mkUploadedFile png [Byte.x89; Byte.x00; Byte.x01; Byte.x01; Byte.x7f].

Definition cmyk_jpg : UploadedFile :=
  mkUploadedFile jpg
    [Byte.xff; Byte.x03; Byte.x01; Byte.x01; Byte.x10; Byte.x20; Byte.x30; Byte.x40].

(** Sample submissions and database files. *)

Definition cmyk_submission : widgets :=
  mkWidgets (lit "What is in this picture?") (Some cmyk_jpg) true false.

Definition blank_cmyk_submission : widgets :=
  mkWidgets (lit "  ") (Some cmyk_jpg) true false.

Definition grey_submission : widgets :=
  mkWidgets (lit " ") (Some grey_png) true true.

Definition text_submission : widgets :=
  mkWidgets (lit "Hello?") None true false.

Definition blank_submission : widgets :=
  mkWidgets (lit "   ") None true false.

Definition grey_image : toy_image :=
  mkToyImage L Byte.x01 Byte.x01 [Byte.x7f].

(** The file after one submission, and after a second one. *)
Definition toy_db1 : option table :=
  db (toy_world true) (run (toy_world true) toy_secrets toy_now text_submission None).2.

Definition toy_db2 : option table :=
  db (toy_world true)
     (run (toy_world true) toy_secrets toy_now grey_submission toy_db1).2.

(** Further samples: an upload that is no image file, a secret storage whose
    key is empty, and a widget state in which only Load All is clicked. *)
Definition broken_upload : UploadedFile := mkUploadedFile png [].

Definition empty_key_secrets : gmap string str :=
  {[ "OPENAI_API_KEY"%string := ([] : str) ]}.

Definition load_only : widgets := mkWidgets [] None false true.

(** A [datetime] of the years 1000 to 9999: the fields are within the
    bounds Python keeps on them. *)
Definition datetime_ok (d : datetime) : Prop :=
  (1000 <= year d <= 9999) /\ (1 <= month d <= 12) /\ (1 <= day d <= 31)
  /\ hour d <= 23 /\ minute d <= 59 /\ second d <= 59.

(** Decimal digits. *)
Definition isdigit (c : N) : bool := (48 <=? c) && (c <=? 57).

(** The shape [YYYY-MM-DD HH:MM:SS]. *)
Definition is_timestamp (ts : str) : bool :=
  match ts with
  | [y1; y2; y3; y4; s1; m1; m2; s2; d1; d2; s3; h1; h2; s4; n1; n2; s5; c1; c2] =>
    forallb isdigit [y1; y2; y3; y4; m1; m2; d1; d2; h1; h2; n1; n2; c1; c2]
    && (s1 =? 45) && (s2 =? 45) && (s3 =? 32) && (s4 =? 58) && (s5 =? 58)
  | _ => false
  end.

(** Elements drawn in the main column before the response, and elements of
    the history. *)
Definition is_header_element (W : World) (e : element W) : bool :=
  match e with
  | Title _ _ | Text _ _ | TextArea _ _ | FileUploader _ _ | ErrorBox _ _
  | Button _ _ => true
  | _ => false
  end.

Definition is_history_element (W : World) (e : element W) : bool :=
  match e with
  | SidebarMarkdown _ _ | SidebarImage _ _ _ | SidebarText _ _ => true
  | _ => false
  end.

(** What the browser shows after a rerun: the elements the script drew and,
    when an exception escaped the script, the error box in which Streamlit's
    script runner reports it.  [st.stop()] ends the rerun without a box. *)
Inductive shown (W : World) : Type :=
| Drawn (e : element W)
| ExceptionBox (e : exception).

Definition page (W : World) (r : outcome unit * state W) : list (shown W) :=
  map (Drawn W) (drawn W r)
  ++ match r.1 with
     | Exc e => [ExceptionBox W e]
     | _ => []
     end.

(** A 1x1 RGB JPEG upload, the image it opens as, and a submission of it. *)
Definition rgb_jpg : UploadedFile :=
  mkUploadedFile jpg
    [Byte.xff; Byte.x01; Byte.x01; Byte.x01; Byte.x0a; Byte.x14; Byte.x1e].

Definition rgb_image : toy_image :=
  mkToyImage RGB Byte.x01 Byte.x01 [Byte.x0a; Byte.x14; Byte.x1e].

Definition rgb_png_data : bytes :=
  [Byte.x89; Byte.x01; Byte.x01; Byte.x01; Byte.x0a; Byte.x14; Byte.x1e].

Definition rgb_submission : widgets :=
  mkWidgets (lit "What is in this picture?") (Some rgb_jpg) true false.

(** * Properties *)

(** Linear arithmetic with division and remainder by constants. *)
Ltac dlia := zify; Z.to_euclidean_division_equations; lia.

(** ** Bytes and the base64 tables *)

Lemma byte_of_N_to_N (b : byte) : byte_of_N (Byte.to_N b) = b.
Proof. unfold byte_of_N. now rewrite Byte.of_to_N. Qed.

Lemma to_N_lt_256 (b : byte) : Byte.to_N b < 256.
Proof. pose proof (Byte.to_N_bounded b). lia. Qed.

Lemma to_N_byte_of_N (n : N) : n < 256 -> Byte.to_N (byte_of_N n) = n.
Proof.
  intros Hn. unfold byte_of_N.
  destruct (Byte.of_N n) as [b|] eqn:E.
  - now apply Byte.to_of_N.
  - apply Byte.of_N_None_iff in E. lia.
Qed.

Lemma table_a2b_b2a (i : N) :
  i < 64 -> table_a2b_base64 (table_b2a_base64 i) = Some i.
Proof.
  intros Hi. unfold table_a2b_base64, table_b2a_base64.
  repeat (case_match; try lia); f_equal; lia.
Qed.

Lemma table_b2a_range (i : N) :
  i < 64 -> table_b2a_base64 i < 128 /\ table_b2a_base64 i <> BASE64_PAD.
Proof.
  intros Hi. unfold table_b2a_base64, BASE64_PAD.
  repeat (case_match; try lia).
Qed.

Lemma to_N_b64_digit (i : N) :
  i < 64 -> Byte.to_N (b64_digit i) = table_b2a_base64 i.
Proof.
  intros Hi. unfold b64_digit. apply to_N_byte_of_N.
  pose proof (table_b2a_range i Hi). lia.
Qed.

(** ** The decoder on the encoder's output *)

(** One alphabet character advances the quad. *)
Lemma a2b_loop_digit (v : N) (r : bytes) (q l p : N) (out : bytes) :
  v < 64 ->
  a2b_base64_loop (b64_digit v :: r) q l p out =
  match q with
  | 0 => a2b_base64_loop r 1 v 0 out
  | 1 => a2b_base64_loop r 2 (v mod 16) 0 (byte_of_N (l * 4 + v / 16) :: out)
  | 2 => a2b_base64_loop r 3 (v mod 4) 0 (byte_of_N (l * 16 + v / 4) :: out)
  | _ => a2b_base64_loop r 0 0 0 (byte_of_N (l * 64 + v) :: out)
  end.
Proof.
  intros Hv. cbn [a2b_base64_loop].
  rewrite (to_N_b64_digit v Hv), (table_a2b_b2a v Hv).
  destruct (table_b2a_range v Hv) as [_ Hpad].
  destruct (N.eqb_spec (table_b2a_base64 v) BASE64_PAD); [contradiction | reflexivity].
Qed.

(** A pad character counts only once two characters of the quad are in. *)
Lemma a2b_loop_pad (r : bytes) (q l p : N) (out : bytes) :
  a2b_base64_loop (byte_of_N BASE64_PAD :: r) q l p out =
  if 2 <=? q then
    if 4 <=? q + (p + 1) then Ok (rev out)
    else a2b_base64_loop r q l (p + 1) out
  else a2b_base64_loop r q l p out.
Proof. reflexivity. Qed.

Lemma list_ind3 {A : Type} (P : list A -> Prop) :
  P [] -> (forall x, P [x]) -> (forall x y, P [x; y]) ->
  (forall x y z r, P r -> P (x :: y :: z :: r)) ->
  forall l, P l.
Proof.
  intros H0 H1 H2 H3. fix IH 1.
  intros [|x [|y [|z r]]];
    [exact H0 | apply H1 | apply H2 | apply H3, IH].
Qed.

Lemma a2b_loop_b64encode (s out : bytes) :
  a2b_base64_loop (b64encode s) 0 0 0 out = Ok (rev out ++ s).
Proof.
  revert out. induction s as [|x|x y|x y z r IH] using list_ind3; intros out.
  - cbn. now rewrite app_nil_r.
  - pose proof (to_N_lt_256 x) as Hx.
    cbn [b64encode].
    rewrite a2b_loop_digit by dlia. rewrite a2b_loop_digit by dlia.
    rewrite !a2b_loop_pad. cbn.
    replace (Byte.to_N x / 4 * 4 + Byte.to_N x mod 4 * 16 / 16)
      with (Byte.to_N x) by dlia.
    now rewrite byte_of_N_to_N.
  - pose proof (to_N_lt_256 x) as Hx. pose proof (to_N_lt_256 y) as Hy.
    cbn [b64encode].
    rewrite a2b_loop_digit by dlia. rewrite a2b_loop_digit by dlia.
    rewrite a2b_loop_digit by dlia.
    rewrite a2b_loop_pad. cbn.
    replace (Byte.to_N x / 4 * 4 + (Byte.to_N x mod 4 * 16 + Byte.to_N y / 16) / 16)
      with (Byte.to_N x) by dlia.
    replace ((Byte.to_N x mod 4 * 16 + Byte.to_N y / 16) mod 16 * 16
             + Byte.to_N y mod 16 * 4 / 4)
      with (Byte.to_N y) by dlia.
    rewrite !byte_of_N_to_N. now rewrite <- app_assoc.
  - pose proof (to_N_lt_256 x) as Hx. pose proof (to_N_lt_256 y) as Hy.
    pose proof (to_N_lt_256 z) as Hz.
    cbn [b64encode].
    rewrite a2b_loop_digit by dlia. rewrite a2b_loop_digit by dlia.
    rewrite a2b_loop_digit by dlia. rewrite a2b_loop_digit by dlia.
    cbn match.
    replace (Byte.to_N x / 4 * 4 + (Byte.to_N x mod 4 * 16 + Byte.to_N y / 16) / 16)
      with (Byte.to_N x) by dlia.
    replace ((Byte.to_N x mod 4 * 16 + Byte.to_N y / 16) mod 16 * 16
             + (Byte.to_N y mod 16 * 4 + Byte.to_N z / 64) / 4)
      with (Byte.to_N y) by dlia.
    replace ((Byte.to_N y mod 16 * 4 + Byte.to_N z / 64) mod 4 * 64
             + Byte.to_N z mod 64)
      with (Byte.to_N z) by dlia.
    rewrite !byte_of_N_to_N, IH. cbn [rev].
    now rewrite <- !app_assoc.
Qed.

Lemma a2b_base64_b64encode (s : bytes) : a2b_base64 (b64encode s) = Ok s.
Proof. unfold a2b_base64. now rewrite a2b_loop_b64encode. Qed.

(** The encoder's output is ASCII. *)
Lemma b64encode_ascii (s : bytes) :
  Forall (fun b => Byte.to_N b < 128) (b64encode s).
Proof.
  assert (Hd : forall i, i < 64 -> Byte.to_N (b64_digit i) < 128).
  { intros i Hi. rewrite to_N_b64_digit by exact Hi.
    now destruct (table_b2a_range i Hi). }
  assert (Hp : Byte.to_N (byte_of_N BASE64_PAD) < 128) by (cbn; lia).
  induction s as [|x|x y|x y z r IH] using list_ind3; cbn [b64encode].
  - constructor.
  - pose proof (to_N_lt_256 x).
    repeat (constructor; [first [exact Hp | apply Hd; dlia] |]). constructor.
  - pose proof (to_N_lt_256 x). pose proof (to_N_lt_256 y).
    repeat (constructor; [first [exact Hp | apply Hd; dlia] |]). constructor.
  - pose proof (to_N_lt_256 x). pose proof (to_N_lt_256 y).
    pose proof (to_N_lt_256 z).
    repeat (constructor; [apply Hd; dlia |]). exact IH.
Qed.

(** ASCII bytes decode to themselves. *)
Lemma utf8_decode_ascii (bs : bytes) :
  Forall (fun b => Byte.to_N b < 128) bs ->
  utf8_decode bs = Ok (map Byte.to_N bs).
Proof.
  induction 1 as [|b r Hb _ IH]; [reflexivity |].
  cbn [utf8_decode map].
  destruct (N.ltb_spec (Byte.to_N b) 128); [| lia].
  now rewrite IH.
Qed.

Lemma forallb_ascii (bs : bytes) :
  Forall (fun b => Byte.to_N b < 128) bs ->
  forallb (fun c => c <? 128) (map Byte.to_N bs) = true.
Proof.
  induction 1 as [|b r Hb _ IH]; [reflexivity |].
  cbn. rewrite IH. destruct (N.ltb_spec (Byte.to_N b) 128); [reflexivity | lia].
Qed.

Lemma map_byte_of_N_to_N (bs : bytes) : map byte_of_N (map Byte.to_N bs) = bs.
Proof.
  induction bs as [|b r IH]; [reflexivity |].
  cbn. now rewrite byte_of_N_to_N, IH.
Qed.

Lemma decode_b64encode (data : bytes) :
  utf8_decode (b64encode data) = Ok (base64_text data).
Proof. apply utf8_decode_ascii, b64encode_ascii. Qed.

Lemma b64decode_base64_text (data : bytes) :
  b64decode (base64_text data) = Ok data.
Proof.
  unfold b64decode, base64_text.
  rewrite forallb_ascii by apply b64encode_ascii.
  rewrite map_byte_of_N_to_N. apply a2b_base64_b64encode.
Qed.

Lemma base64_text_nil (data : bytes) : base64_text data = [] -> data = [].
Proof.
  unfold base64_text. destruct data as [|x [|y [|z r]]]; [reflexivity | | |];
    cbn; discriminate.
Qed.

(** Known values of the codec (RFC 4648, section 10) and of the helpers. *)

Example b64encode_f : b64encode (ascii_bytes "f") = ascii_bytes "Zg==".
Proof. reflexivity. Qed.

Example b64encode_fo : b64encode (ascii_bytes "fo") = ascii_bytes "Zm8=".
Proof. reflexivity. Qed.

Example b64encode_foobar : b64encode (ascii_bytes "foobar") = ascii_bytes "Zm9vYmFy".
Proof. reflexivity. Qed.

Example b64decode_skips_other_bytes :
  b64decode (lit "Zm9v YmFy") = Ok (ascii_bytes "foobar").
Proof. reflexivity. Qed.

Example b64decode_incorrect_padding :
  b64decode (lit "Zm8") = Raise (binascii_Error (lit "Incorrect padding")).
Proof. reflexivity. Qed.

Example strip_example : strip (lit "  a b  ") = lit "a b".
Proof. reflexivity. Qed.

Example strftime_example : strftime toy_now = lit "2024-03-09 14:05:07".
Proof. reflexivity. Qed.

Lemma encode_image_to_base64_eq (W : World) (im : Image W) :
  encode_image_to_base64 W im = result_map base64_text (Image_save_png W im).
Proof.
  unfold encode_image_to_base64.
  destruct (Image_save_png W im) as [data|e]; cbn; [apply decode_b64encode | reflexivity].
Qed.

(** ** [strip] *)

Lemma lstrip_nil_iff (s : str) : lstrip s = [] <-> blank s.
Proof.
  unfold blank. induction s as [|c r IH]; cbn.
  - split; [constructor | reflexivity].
  - destruct (isspace c) eqn:E.
    + rewrite IH. split; [now constructor | now inversion 1].
    + split; [discriminate | inversion 1; congruence].
Qed.

Lemma lstrip_blank_inv (s : str) : blank (lstrip s) -> blank s.
Proof.
  unfold blank. induction s as [|c r IH]; cbn; [trivial |].
  destruct (isspace c) eqn:E; [| trivial].
  intros H. constructor; [exact E | exact (IH H)].
Qed.

Lemma blank_rev (s : str) : blank (rev s) <-> blank s.
Proof.
  unfold blank. rewrite !List.Forall_forall.
  split; intros H x Hx; apply H; [now apply List.in_rev in Hx | now apply List.in_rev].
Qed.

Lemma strip_nil_iff (s : str) : strip s = [] <-> blank s.
Proof.
  unfold strip, rstrip. split.
  - intros H. apply lstrip_blank_inv, blank_rev, lstrip_nil_iff.
    apply (f_equal (@rev N)) in H. now rewrite rev_involutive in H.
  - intros H. apply lstrip_nil_iff in H. rewrite H. reflexivity.
Qed.

Lemma str_truthy_strip (s : str) : str_truthy (strip s) = false <-> blank s.
Proof.
  rewrite <- strip_nil_iff. destruct (strip s); cbn; split; congruence.
Qed.

(** ** The table *)

Lemma max_rowid_ge (l : list row) : Forall (fun r => (id r <= max_rowid l)%Z) l.
Proof.
  induction l as [|a l IH]; [constructor |].
  change (max_rowid (a :: l)) with (Z.max (id a) (max_rowid l)).
  constructor; [lia |].
  eapply List.Forall_impl; [| exact IH]. cbn beta. intros r Hr. lia.
Qed.

Lemma next_rowid_fresh (t : table) :
  Forall (fun r => (id r < next_rowid t)%Z) (rows t).
Proof.
  eapply List.Forall_impl; [| apply max_rowid_ge].
  cbn beta. unfold next_rowid. intros r Hr. lia.
Qed.

Lemma rowids_increasing_snoc (l : list row) (r : row) :
  rowids_increasing l -> Forall (fun x => (id x < id r)%Z) l ->
  rowids_increasing (l ++ [r]).
Proof.
  unfold rowids_increasing. induction 1 as [|a l Hl IH Ha]; cbn; intros Hr.
  - repeat constructor.
  - inversion Hr as [|? ? Har Hlr]; subst. constructor.
    + now apply IH.
    + apply List.Forall_app. split; [exact Ha | now constructor].
Qed.

Lemma insert_desc_smallest (r : row) (l : list row) :
  Forall (fun x => (id r < id x)%Z) l -> insert_desc r l = l ++ [r].
Proof.
  induction 1 as [|x l Hx _ IH]; cbn; [reflexivity |].
  destruct (Z.ltb_spec (id x) (id r)); [lia | now rewrite IH].
Qed.

Lemma order_by_id_desc_increasing (l : list row) :
  rowids_increasing l -> order_by_id_desc l = rev l.
Proof.
  unfold rowids_increasing. induction 1 as [|a l Hl IH Ha]; [reflexivity |].
  cbn. unfold order_by_id_desc in IH. rewrite IH.
  apply insert_desc_smallest.
  rewrite List.Forall_forall in *. intros x Hx. apply Ha. now apply List.in_rev.
Qed.

(** [order_by_id_desc] is a sort: it keeps the rows and puts larger rowids
    first, whatever the table holds. *)
Lemma insert_desc_perm (r : row) (l : list row) :
  Permutation (insert_desc r l) (r :: l).
Proof.
  induction l as [|x l IH]; cbn; [reflexivity |].
  destruct (id x <? id r)%Z; [reflexivity |].
  rewrite IH. apply perm_swap.
Qed.

Lemma order_by_id_desc_perm (l : list row) : Permutation (order_by_id_desc l) l.
Proof.
  induction l as [|r l IH]; cbn; [reflexivity |].
  rewrite insert_desc_perm. now constructor.
Qed.



Lemma select_desc_increasing (t : table) :
  rowids_increasing (rows t) -> select_desc t = rev (map columns (rows t)).
Proof.
  intros H. unfold select_desc. rewrite order_by_id_desc_increasing by exact H.
  apply map_rev.
Qed.

Lemma strftime_nonempty (now : datetime) : strftime now <> [].
Proof.
  unfold strftime. destruct (zfill 4 (str_of_N (year now))); discriminate.
Qed.

Lemma empty_table_ok : table_ok empty_table.
Proof. split; constructor. Qed.

Lemma insert_row_ok (t : table) (p b r : option str) (ts : str) :
  table_ok t -> ts <> [] -> table_ok (insert_row t p b r (Some ts)).
Proof.
  intros [Hinc Hts] Hne. split; cbn.
  - apply rowids_increasing_snoc; [exact Hinc | apply next_rowid_fresh].
  - apply List.Forall_app. split; [exact Hts |].
    constructor; [| constructor]. cbn. now exists ts.
Qed.

(** ** The script, piece by piece *)

Section Script.

Variable W : World.

Lemma read_upload_eq (f : option UploadedFile) (s : state W) :
  read_upload W f s =
  (Ret (opened W f),
   mkState W (db W s)
     (match f with
      | Some f =>
        match Image_open W (file_data f) with
        | Ok _ => []
        | Raise e => [ErrorBox W (lit "Error reading image: " ++ exc_str e)]
        end
      | None => []
      end ++ ui W s)
     (api W s)).
Proof.
  destruct s as [d u a]. destruct f as [f|]; [| reflexivity].
  unfold read_upload, opened, try_except, bind, lift, draw, ret. cbn.
  destruct (Image_open W (file_data f)); reflexivity.
Qed.

Lemma show_stored_image_eq (b64 : str) (s : state W) :
  show_stored_image W b64 s =
  (Ret tt,
   mkState W (db W s)
     (match decode_stored W b64 with
      | Ok img => [SidebarImage W img (lit "Uploaded Image")]
      | Raise _ => []
      end ++ ui W s)
     (api W s)).
Proof.
  destruct s as [d u a].
  unfold show_stored_image, decode_stored, try_except, bind, lift, draw, ret. cbn.
  destruct (b64decode b64) as [data|e]; cbn; [| reflexivity].
  destruct (Image_open W data) as [img|e]; cbn; [| reflexivity].
  destruct (st_image W img) as [[]|e]; reflexivity.
Qed.

Lemma render_convo_eq (idx : N) (convo : record) (s : state W) :
  render_convo W idx convo s =
  (Ret tt,
   mkState W (db W s) (rev (convo_elements W idx convo) ++ ui W s) (api W s)).
Proof.
  destruct convo as [[[p b] r] ts].
  unfold render_convo, convo_elements, bind.
  destruct b as [[|c b]|]; cbn -[lit str_of_N]; try reflexivity.
  rewrite show_stored_image_eq. cbn -[lit str_of_N].
  destruct (decode_stored W (c :: b)); reflexivity.
Qed.

Lemma render_all_eq (all_convos : list record) (idx : N) (s : state W) :
  render_all W idx all_convos s =
  (Ret tt,
   mkState W (db W s) (rev (history_elements W idx all_convos) ++ ui W s)
     (api W s)).
Proof.
  revert idx s. induction all_convos as [|convo rest IH]; intros idx s.
  - destruct s; reflexivity.
  - cbn [render_all history_elements]. unfold bind.
    rewrite render_convo_eq, IH. cbn [db ui api].
    now rewrite rev_app_distr, app_assoc.
Qed.

Lemma on_load_all_eq (t : table) (s : state W) :
  db W s = Some t ->
  on_load_all W s =
  (Ret tt,
   mkState W (db W s) (rev (load_all_elements W t) ++ ui W s) (api W s)).
Proof.
  destruct s as [d u a]. cbn [db ui api]. intros ->.
  unfold on_load_all, load_conversations, load_all_elements, bind. cbn [db].
  destruct (select_desc t) as [|convo rest].
  - reflexivity.
  - apply render_all_eq.
Qed.

(** The Send action, in full. *)
Lemma on_send_eq (API_KEY : str) (now : datetime) (prompt : str)
    (image_obj : option (Image W)) (s : state W) :
  on_send W API_KEY now prompt image_obj s =
  if negb (str_truthy (strip prompt)) && negb (truthy image_obj) then
    (Ret tt,
     mkState W (db W s)
       (WarningBox W (lit "Please provide a prompt or an image.") :: ui W s)
       (api W s))
  else
    match encode_optional W image_obj with
    | Raise e =>
      (Exc e,
       mkState W (db W s)
         (Text W (lit "Error: " ++ exc_str e) :: Subheader W (lit "Response:")
          :: Spinner W (lit "Analyzing...") :: ui W s)
         (api W s))
    | Ok b =>
      let req := build_request prompt b in
      let u := Text W (reply W API_KEY req) :: Subheader W (lit "Response:")
               :: Spinner W (lit "Analyzing...") :: ui W s in
      match db W s with
      | Some t =>
        (Ret tt,
         mkState W
           (Some (insert_row t (Some prompt) b (Some (reply W API_KEY req))
                             (Some (strftime now))))
           u ((API_KEY, req) :: api W s))
      | None => (Exc no_such_table, mkState W None u ((API_KEY, req) :: api W s))
      end
    end.
Proof.
  destruct s as [d u a]. unfold on_send.
  destruct (negb (str_truthy (strip prompt)) && negb (truthy image_obj));
    [reflexivity |].
  unfold analyze_image_with_prompt, load_model, save_conversation,
    execute_insert, create, reply, try_except, bind, lift, draw, ret.
  cbn -[lit strftime build_request].
  destruct (encode_optional W image_obj) as [b|e]; cbn -[lit strftime build_request];
    [| reflexivity].
  destruct (chat_completions_create W API_KEY (build_request prompt b));
    cbn -[lit strftime build_request]; destruct d; reflexivity.
Qed.

End Script.

(** ** One rerun, in full *)

Section Rerun.

Variable W : World.

Lemma rev_header_elements (w : widgets) :
  rev (header_elements W w) =
  Button W (lit "Send")
  :: (match uploaded_image w with
      | Some f =>
        match Image_open W (file_data f) with
        | Ok _ => []
        | Raise e => [ErrorBox W (lit "Error reading image: " ++ exc_str e)]
        end
      | None => []
      end
      ++ [FileUploader W (lit "Upload an image (optional)");
          TextArea W (lit "Enter your prompt:");
          Text W (lit "A Streamlit chatbot that can optionally handle images and stores conversations in SQLite.");
          Title W (lit "Simple Image+Text Chatbot with SQLite")]).
Proof.
  unfold header_elements. rewrite !rev_app_distr.
  destruct (uploaded_image w) as [f|]; [| reflexivity].
  destruct (Image_open W (file_data f)); reflexivity.
Qed.

(** The sidebar, drawn over a table that exists. *)
Lemma sidebar_eq (w : widgets) (t : table) (u : list (element W))
    (a : list (str * request)) :
  (if load_all_clicked w then on_load_all W else ret W tt)
    (mkState W (Some t)
       (SidebarButton W (lit "Load All")
        :: SidebarHeader W (lit "View Stored Conversations") :: u) a)
  = (Ret tt, mkState W (Some t) (rev (sidebar_elements W w t) ++ u) a).
Proof.
  unfold sidebar_elements. destruct (load_all_clicked w); [| reflexivity].
  rewrite (on_load_all_eq W t) by reflexivity. cbn [db ui api].
  rewrite rev_app_distr, <- app_assoc. reflexivity.
Qed.

(** [main] on a fresh rerun over the table [t]. *)
Lemma main_eq (k : str) (now : datetime) (w : widgets) (t : table) :
  main W k now w (mkState W (Some t) [] []) =
  if send_clicked w && accepted W w then
    match encode_optional W (opened W (uploaded_image w)) with
    | Raise e =>
      (Exc e,
       mkState W (Some t)
         (Text W (lit "Error: " ++ exc_str e) :: Subheader W (lit "Response:")
          :: Spinner W (lit "Analyzing...") :: rev (header_elements W w))
         [])
    | Ok b =>
      let req := build_request (prompt_text w) b in
      let t' := insert_row t (Some (prompt_text w)) b
                  (Some (reply W k req)) (Some (strftime now)) in
      (Ret tt,
       mkState W (Some t')
         (rev (sidebar_elements W w t')
          ++ Text W (reply W k req) :: Subheader W (lit "Response:")
          :: Spinner W (lit "Analyzing...") :: rev (header_elements W w))
         [(k, req)])
    end
  else
    (Ret tt,
     mkState W (Some t)
       (rev (sidebar_elements W w t)
        ++ (if send_clicked w
            then [WarningBox W (lit "Please provide a prompt or an image.")]
            else [])
        ++ rev (header_elements W w))
       []).
Proof.
  unfold main, bind, draw. cbn [fst snd db ui api].
  rewrite read_upload_eq. cbn [db ui api].
  rewrite rev_header_elements. set (hdr := Button W (lit "Send") :: _).
  destruct (send_clicked w); cbn [andb].
  - rewrite on_send_eq. unfold accepted. cbn [db ui api].
    destruct (str_truthy (strip (prompt_text w)));
      destruct (truthy (opened W (uploaded_image w))); cbn [negb andb orb].
    1-3: destruct (encode_optional W (opened W (uploaded_image w))) as [b|e];
      [cbv zeta; apply sidebar_eq | reflexivity].
    apply sidebar_eq.
  - apply sidebar_eq.
Qed.

Lemma run_eq (secrets : option (gmap string str)) (now : datetime)
    (w : widgets) (d : option table) :
  run W secrets now w d =
  match secrets_getitem secrets "OPENAI_API_KEY" with
  | Raise e => (Exc e, mkState W d [] [])
  | Ok k =>
    if negb (str_truthy k) then
      (Halt,
       mkState W d
         [ErrorBox W (lit "OpenAI API key not found. Please set OPENAI_API_KEY in .env or environment variables.")]
         [])
    else
      let t := table_of d in
      let hdr := rev (header_elements W w) in
      if send_clicked w && accepted W w then
        match encode_optional W (opened W (uploaded_image w)) with
        | Raise e =>
          (Exc e,
           mkState W (Some t)
             (Text W (lit "Error: " ++ exc_str e) :: Subheader W (lit "Response:")
              :: Spinner W (lit "Analyzing...") :: hdr)
             [])
        | Ok b =>
          let req := build_request (prompt_text w) b in
          let t' := insert_row t (Some (prompt_text w)) b
                      (Some (reply W k req)) (Some (strftime now)) in
          (Ret tt,
           mkState W (Some t')
             (rev (sidebar_elements W w t')
              ++ Text W (reply W k req) :: Subheader W (lit "Response:")
              :: Spinner W (lit "Analyzing...") :: hdr)
             [(k, req)])
        end
      else
        (Ret tt,
         mkState W (Some t)
           (rev (sidebar_elements W w t)
            ++ (if send_clicked w
                then [WarningBox W (lit "Please provide a prompt or an image.")]
                else [])
            ++ hdr)
           [])
  end.
Proof.
  unfold run, app, bind at 1, lift.
  destruct (secrets_getitem secrets "OPENAI_API_KEY") as [k|e]; [| reflexivity].
  destruct (str_truthy k); cbn [negb]; [| reflexivity].
  unfold bind, create_table_if_not_exists. cbn [db ui api].
  destruct d as [t|]; cbn [table_of]; apply main_eq.
Qed.

End Rerun.

(** ** Consequences of [run_eq] *)

Section Facts.

Variable W : World.

Lemma secrets_getitem_has_key (secrets : option (gmap string str)) (k : str) :
  has_key secrets k ->
  secrets_getitem secrets "OPENAI_API_KEY" = Ok k /\ str_truthy k = true.
Proof.
  intros (m & -> & Hm & Hk). unfold secrets_getitem. rewrite Hm.
  split; [reflexivity |].
  destruct k; [contradiction | reflexivity].
Qed.

Lemma accepted_false (w : widgets) :
  accepted W w = false <->
  blank (prompt_text w) /\ opened W (uploaded_image w) = None.
Proof.
  unfold accepted. rewrite orb_false_iff, str_truthy_strip.
  destruct (opened W (uploaded_image w)); cbn; intuition congruence.
Qed.

(** What a rerun leaves in the database file: the file as it was (with the
    table created), or that table with one more row. *)
Lemma run_db_cases (secrets : option (gmap string str)) (now : datetime)
    (w : widgets) (d : option table) :
  let d' := db W (run W secrets now w d).2 in
  d' = d \/ d' = Some (table_of d)
  \/ exists p b r, d' = Some (insert_row (table_of d) p b r (Some (strftime now))).
Proof.
  cbv zeta. rewrite run_eq.
  destruct (secrets_getitem secrets "OPENAI_API_KEY") as [k|e]; [| now left].
  destruct (negb (str_truthy k)); [now left |]. cbv zeta.
  destruct (send_clicked w && accepted W w); [| now right; left].
  destruct (encode_optional W (opened W (uploaded_image w))) as [b|e];
    [| now right; left].
  right; right. now eexists _, _, _.
Qed.

Lemma reachable_ok (d : option table) : reachable W d -> table_ok (table_of d).
Proof.
  induction 1 as [|secrets now w d Hd IH]; [apply empty_table_ok |].
  destruct (run_db_cases secrets now w d) as [-> | [-> | (p & b & r & ->)]];
    cbn [table_of]; [exact IH | exact IH |].
  apply insert_row_ok; [exact IH | apply strftime_nonempty].
Qed.

(** A request is sent only by an accepted submission whose image, if any,
    could be encoded. *)
Lemma run_sent_inv (secrets : option (gmap string str)) (now : datetime)
    (w : widgets) (d : option table) (key : str) (req : request) :
  In (key, req) (sent W (run W secrets now w d)) ->
  exists b,
    encode_optional W (opened W (uploaded_image w)) = Ok b
    /\ req = build_request (prompt_text w) b
    /\ run W secrets now w d =
       (Ret tt,
        mkState W
          (Some (insert_row (table_of d) (Some (prompt_text w)) b
                   (Some (reply W key req)) (Some (strftime now))))
          (rev (sidebar_elements W w
                  (insert_row (table_of d) (Some (prompt_text w)) b
                     (Some (reply W key req)) (Some (strftime now))))
           ++ Text W (reply W key req) :: Subheader W (lit "Response:")
           :: Spinner W (lit "Analyzing...") :: rev (header_elements W w))
          [(key, req)]).
Proof.
  unfold sent. rewrite run_eq.
  destruct (secrets_getitem secrets "OPENAI_API_KEY") as [k|e]; [| intros []].
  destruct (negb (str_truthy k)); [intros [] |]. cbv zeta.
  destruct (send_clicked w && accepted W w); [| intros []].
  destruct (encode_optional W (opened W (uploaded_image w))) as [b|e];
    [| intros []].
  cbn [snd api rev app]. intros [Heq | []]. inversion Heq; subst.
  exists b. repeat split.
Qed.

(** An accepted submission whose image cannot be written as PNG: the error
    is shown as the response, the second call of the encoder raises outside
    any handler, and nothing is saved. *)
Lemma run_encode_error (secrets : option (gmap string str)) (now : datetime)
    (w : widgets) (d : option table) (k : str) (e : exception) :
  has_key secrets k -> send_clicked w = true -> accepted W w = true ->
  encode_optional W (opened W (uploaded_image w)) = Raise e ->
  run W secrets now w d =
  (Exc e,
   mkState W (Some (table_of d))
     (Text W (lit "Error: " ++ exc_str e) :: Subheader W (lit "Response:")
      :: Spinner W (lit "Analyzing...") :: rev (header_elements W w))
     []).
Proof.
  intros Hk Hsend Hacc Henc. rewrite run_eq.
  destruct (secrets_getitem_has_key secrets k Hk) as [-> ->].
  cbn [negb]. cbv zeta. now rewrite Hsend, Hacc, Henc.
Qed.

(** An accepted submission whose image, if any, can be encoded: one request,
    one new row. *)
Lemma run_submitted (secrets : option (gmap string str)) (now : datetime)
    (w : widgets) (d : option table) (k : str) (b : option str) :
  has_key secrets k -> send_clicked w = true -> accepted W w = true ->
  encode_optional W (opened W (uploaded_image w)) = Ok b ->
  let req := build_request (prompt_text w) b in
  let t' := insert_row (table_of d) (Some (prompt_text w)) b
              (Some (reply W k req)) (Some (strftime now)) in
  run W secrets now w d =
  (Ret tt,
   mkState W (Some t')
     (rev (sidebar_elements W w t')
      ++ Text W (reply W k req) :: Subheader W (lit "Response:")
      :: Spinner W (lit "Analyzing...") :: rev (header_elements W w))
     [(k, req)]).
Proof.
  intros Hk Hsend Hacc Henc. cbv zeta. rewrite run_eq.
  destruct (secrets_getitem_has_key secrets k Hk) as [-> ->].
  cbn [negb]. cbv zeta. now rewrite Hsend, Hacc, Henc.
Qed.

(** A key that is present but empty: the guard draws its message and stops
    the script. *)
Lemma run_empty_key (m : gmap string str) (now : datetime) (w : widgets)
    (d : option table) :
  m !! "OPENAI_API_KEY"%string = Some ([] : str) ->
  run W (Some m) now w d =
  (Halt,
   mkState W d
     [ErrorBox W (lit "OpenAI API key not found. Please set OPENAI_API_KEY in .env or environment variables.")]
     []).
Proof. intros Hm. rewrite run_eq. unfold secrets_getitem. now rewrite Hm. Qed.

End Facts.

Section Rows.

Variable W : World.

Lemma rows_table_of (d : option table) : rows (table_of d) = rows_of d.
Proof. destruct d; reflexivity. Qed.

(** The rows after a rerun: the rows before, or those and one new row, made
    from the prompt, the encoded image and the reply to the one request. *)
Lemma run_rows_cases (secrets : option (gmap string str)) (now : datetime)
    (w : widgets) (d : option table) :
  (rows_of (db W (run W secrets now w d).2) = rows_of d
   /\ sent W (run W secrets now w d) = [])
  \/ exists k b,
      encode_optional W (opened W (uploaded_image w)) = Ok b
      /\ sent W (run W secrets now w d)
         = [(k, build_request (prompt_text w) b)]
      /\ rows_of (db W (run W secrets now w d).2)
         = rows_of d
           ++ [mkRow (next_rowid (table_of d)) (Some (prompt_text w)) b
                 (Some (reply W k (build_request (prompt_text w) b)))
                 (Some (strftime now))].
Proof.
  rewrite run_eq.
  destruct (secrets_getitem secrets "OPENAI_API_KEY") as [k|e]; [| now left].
  destruct (negb (str_truthy k)); [now left |]. cbv zeta.
  destruct (send_clicked w && accepted W w).
  - destruct (encode_optional W (opened W (uploaded_image w))) as [b|e] eqn:Henc.
    + right. exists k, b. cbn [snd db rows_of insert_row rows].
      rewrite rows_table_of. repeat split.
    + left. cbn [snd db rows_of]. now rewrite rows_table_of.
  - left. cbn [snd db rows_of]. now rewrite rows_table_of.
Qed.

Lemma opened_Some (u : option UploadedFile) (im : Image W) :
  opened W u = Some im ->
  exists f, u = Some f /\ Image_open W (file_data f) = Ok im.
Proof.
  destruct u as [f|]; [| discriminate]. cbn.
  destruct (Image_open W (file_data f)) as [im'|e] eqn:E; [| discriminate].
  intros [= <-]. now exists f.
Qed.

Lemma encode_optional_Some (o : option (Image W)) (s : str) :
  encode_optional W o = Ok (Some s) ->
  exists im data,
    o = Some im /\ Image_save_png W im = Ok data /\ s = base64_text data.
Proof.
  destruct o as [im|]; [| discriminate]. cbn.
  rewrite encode_image_to_base64_eq.
  destruct (Image_save_png W im) as [data|e] eqn:Hsave; [| discriminate].
  cbn. intros [= <-]. now exists im, data.
Qed.

End Rows.

(** ** The sample world *)


Lemma toy_png_nonempty (api_up : bool) : png_nonempty (toy_world api_up).
Proof.
  intros im. cbn. unfold toy_save_png. destruct (toy_mode im); discriminate.
Qed.

Lemma toy_has_key : has_key toy_secrets (lit "sk-test").
Proof.
  exists {[ "OPENAI_API_KEY"%string := lit "sk-test" ]}.
  split; [reflexivity | split; [reflexivity | discriminate]].
Qed.

(** ** The claims *)

(** C1: every submission the Send action accepts inserts exactly one record,
    whether the endpoint answers or raises.  The script departs from this
    for an upload that PIL opens but cannot write as PNG.  Here the prompt is
    not blank and the upload is a CMYK JPEG: the encoder raises inside
    [analyze_image_with_prompt], where the handler turns it into the shown
    response, and raises again at the unguarded call before
    [save_conversation]; the rerun ends with that exception, no request has
    been sent and the table is still empty. *)
Theorem C1_unencodable_upload_is_not_recorded :
  send_clicked cmyk_submission = true
  /\ accepted (toy_world true) cmyk_submission = true
  /\ (run (toy_world true) toy_secrets toy_now cmyk_submission None).1
     = Exc (mkException "OSError" (lit "cannot write mode CMYK as PNG"))
  /\ In (Text (toy_world true) (lit "Error: cannot write mode CMYK as PNG"))
        (drawn (toy_world true)
           (run (toy_world true) toy_secrets toy_now cmyk_submission None))
  /\ sent (toy_world true)
       (run (toy_world true) toy_secrets toy_now cmyk_submission None) = []
  /\ rows_of
       (db (toy_world true)
          (run (toy_world true) toy_secrets toy_now cmyk_submission None).2)
     = [].
Proof.
  repeat split; try reflexivity.
  vm_compute. tauto.
Qed.

(** C2: when the secret storage has no API key, the application halts
    before serving any interaction and the user sees an error.  The lookup
    [st.secrets["OPENAI_API_KEY"]] raises, the exception escapes the script
    at its first statement, and the page holds Streamlit's report of it and
    nothing else: no widget has been drawn, nothing of [main] has run, no
    request has been sent and the database file is untouched.  (The
    script's own [st.error] message is the one for a key that is present
    but empty.) *)
Theorem C2_absent_key_halts_with_error (W : World)
    (secrets : option (gmap string str)) (now : datetime) (w : widgets)
    (d : option table) :
  key_absent secrets ->
  exists e,
    (run W secrets now w d).1 = Exc e
    /\ page W (run W secrets now w d) = [ExceptionBox W e]
    /\ sent W (run W secrets now w d) = []
    /\ db W (run W secrets now w d).2 = d.
Proof.
  intros Habs. unfold page, drawn, sent. rewrite run_eq.
  destruct secrets as [m|]; cbn in Habs.
  - unfold secrets_getitem. rewrite Habs. eexists. repeat split.
  - eexists. repeat split.
Qed.

Lemma C2_absent_key_witness :
  key_absent (Some (∅ : gmap string str))
  /\ exists e,
      (run (toy_world true) (Some ∅) toy_now text_submission None).1 = Exc e
      /\ page (toy_world true)
           (run (toy_world true) (Some ∅) toy_now text_submission None)
         = [ExceptionBox (toy_world true) e]
      /\ sent (toy_world true)
           (run (toy_world true) (Some ∅) toy_now text_submission None) = []
      /\ db (toy_world true)
           (run (toy_world true) (Some ∅) toy_now text_submission None).2
         = None.
Proof.
  split; [reflexivity |].
  apply (C2_absent_key_halts_with_error
           (toy_world true) (Some ∅) toy_now text_submission None).
  reflexivity.
Defined.

(** C3: in every state the table can reach, [load_conversations] returns all
    stored records, the most recently inserted first. *)
Theorem C3_load_conversations_newest_first (W : World) (t : table)
    (u : list (element W)) (a : list (str * request)) :
  reachable W (Some t) ->
  load_conversations W (mkState W (Some t) u a)
  = (Ret (rev (map columns (rows t))), mkState W (Some t) u a).
Proof.
  intros Hreach. apply reachable_ok in Hreach. destruct Hreach as [Hinc _].
  unfold load_conversations. cbn [db table_of] in *.
  now rewrite select_desc_increasing.
Qed.

Lemma C3_load_conversations_witness :
  load_conversations (toy_world true)
    (mkState (toy_world true) (Some (table_of toy_db2)) [] [])
  = (Ret (rev (map columns (rows (table_of toy_db2)))),
     mkState (toy_world true) (Some (table_of toy_db2)) [] []).
Proof.
  apply (C3_load_conversations_newest_first (toy_world true) (table_of toy_db2)).
  exact (reachable_run (toy_world true) toy_secrets toy_now grey_submission _
           (reachable_run (toy_world true) toy_secrets toy_now text_submission _
              (reachable_fresh (toy_world true)))).
Defined.




(** With a lossless PNG codec the reopened image has the pixels of the
    original. *)
Lemma reopened_image_has_the_same_pixels (W : World) (im : Image W) (s : str) :
  png_lossless W ->
  encode_image_to_base64 W im = Ok s ->
  exists im',
    result_bind (b64decode s) (Image_open W) = Ok im' /\ same_pixels W im' im.
Proof.
  intros Hpng Henc. rewrite encode_image_to_base64_eq in Henc.
  destruct (Image_save_png W im) as [data|e] eqn:Hsave; [| discriminate].
  cbn in Henc. injection Henc as <-.
  destruct (Hpng im data Hsave) as (im' & Hopen & Hsame).
  exists im'. rewrite b64decode_base64_text. cbn [result_bind]. now split.
Qed.

(** C5: when the endpoint raises on the request of a submission, the
    exception is caught; its text, after the label [Error: ], is drawn under
    the Response heading and stored as the bot response of the one row the
    rerun inserts; that request is the only one sent. *)
Theorem C5_api_exception_is_shown_and_stored (W : World)
    (secrets : option (gmap string str)) (now : datetime) (w : widgets)
    (d : option table) (key : str) (req : request) (e : exception) :
  In (key, req) (sent W (run W secrets now w d)) ->
  chat_completions_create W key req = Raise e ->
  (run W secrets now w d).1 = Ret tt
  /\ sent W (run W secrets now w d) = [(key, req)]
  /\ (exists before after,
        drawn W (run W secrets now w d)
        = before
          ++ [Subheader W (lit "Response:");
              Text W (lit "Error: " ++ exc_str e)]
          ++ after)
  /\ exists b,
      rows_of (db W (run W secrets now w d).2)
      = rows_of d
        ++ [mkRow (next_rowid (table_of d)) (Some (prompt_text w)) b
              (Some (lit "Error: " ++ exc_str e)) (Some (strftime now))].
Proof.
  intros Hsent Hraise.
  destruct (run_sent_inv W secrets now w d key req Hsent) as (b & _ & _ & Hrun).
  assert (Hreply : reply W key req = lit "Error: " ++ exc_str e)
    by (unfold reply; now rewrite Hraise).
  rewrite Hreply in Hrun. rewrite Hrun. unfold drawn, sent. cbn [fst snd db ui api].
  repeat split.
  - exists (header_elements W w ++ [Spinner W (lit "Analyzing...")]),
           (sidebar_elements W w
              (insert_row (table_of d) (Some (prompt_text w)) b
                 (Some (lit "Error: " ++ exc_str e)) (Some (strftime now)))).
    rewrite rev_app_distr. cbn [rev]. rewrite !rev_involutive.
    rewrite <- !app_assoc. reflexivity.
  - exists b. destruct d; reflexivity.
Qed.

Lemma C5_api_exception_witness :
  In (lit "sk-test", build_request (lit "Hello?") None)
     (sent (toy_world false)
        (run (toy_world false) toy_secrets toy_now text_submission None))
  /\ chat_completions_create (toy_world false) (lit "sk-test")
       (build_request (lit "Hello?") None)
     = Raise connection_error
  /\ (run (toy_world false) toy_secrets toy_now text_submission None).1 = Ret tt
  /\ sent (toy_world false)
       (run (toy_world false) toy_secrets toy_now text_submission None)
     = [(lit "sk-test", build_request (lit "Hello?") None)]
  /\ (exists before after,
        drawn (toy_world false)
          (run (toy_world false) toy_secrets toy_now text_submission None)
        = before
          ++ [Subheader (toy_world false) (lit "Response:");
              Text (toy_world false) (lit "Error: " ++ exc_str connection_error)]
          ++ after)
  /\ exists b,
      rows_of
        (db (toy_world false)
           (run (toy_world false) toy_secrets toy_now text_submission None).2)
      = rows_of None
        ++ [mkRow (next_rowid (table_of None)) (Some (prompt_text text_submission))
              b (Some (lit "Error: " ++ exc_str connection_error))
              (Some (strftime toy_now))].
Proof.
  assert (Hsent : In (lit "sk-test", build_request (lit "Hello?") None)
            (sent (toy_world false)
               (run (toy_world false) toy_secrets toy_now text_submission None)))
    by (vm_compute; tauto).
  split; [exact Hsent |]. split; [reflexivity |].
  exact (C5_api_exception_is_shown_and_stored (toy_world false) toy_secrets
           toy_now text_submission None (lit "sk-test")
           (build_request (lit "Hello?") None) connection_error Hsent eq_refl).
Defined.

(** C6: a submission whose prompt is empty or white space only and which has
    no image is turned away with a warning: no request is sent, and no row
    is added. *)
Theorem C6_blank_submission_is_rejected (W : World)
    (secrets : option (gmap string str)) (now : datetime) (w : widgets)
    (d : option table) (k : str) :
  has_key secrets k ->
  send_clicked w = true ->
  blank (prompt_text w) ->
  opened W (uploaded_image w) = None ->
  (run W secrets now w d).1 = Ret tt
  /\ In (WarningBox W (lit "Please provide a prompt or an image."))
        (drawn W (run W secrets now w d))
  /\ sent W (run W secrets now w d) = []
  /\ rows_of (db W (run W secrets now w d).2) = rows_of d.
Proof.
  intros Hk Hsend Hblank Hnone. rewrite run_eq.
  destruct (secrets_getitem_has_key secrets k Hk) as [-> ->].
  cbn [negb]. cbv zeta.
  assert (Hacc : accepted W w = false).
  { unfold accepted. rewrite Hnone.
    apply str_truthy_strip in Hblank. now rewrite Hblank. }
  rewrite Hsend, Hacc. unfold drawn, sent. cbn [andb fst snd db ui api].
  repeat split.
  - rewrite rev_app_distr, rev_app_distr. apply in_or_app. left.
    apply in_or_app. right. rewrite <- in_rev. now left.
  - destruct d; reflexivity.
Qed.

Lemma C6_blank_submission_witness :
  blank (prompt_text blank_submission)
  /\ (run (toy_world true) toy_secrets toy_now blank_submission None).1 = Ret tt
  /\ In (WarningBox (toy_world true) (lit "Please provide a prompt or an image."))
        (drawn (toy_world true)
           (run (toy_world true) toy_secrets toy_now blank_submission None))
  /\ sent (toy_world true)
       (run (toy_world true) toy_secrets toy_now blank_submission None) = []
  /\ rows_of
       (db (toy_world true)
          (run (toy_world true) toy_secrets toy_now blank_submission None).2)
     = rows_of None.
Proof.
  assert (Hblank : blank (prompt_text blank_submission))
    by (repeat constructor).
  split; [exact Hblank |].
  apply (C6_blank_submission_is_rejected (toy_world true) toy_secrets toy_now
           blank_submission None (lit "sk-test")).
  - apply toy_has_key.
  - reflexivity.
  - exact Hblank.
  - reflexivity.
Defined.

(** C7: a failure of [Image.open] on the upload is caught and reported in an
    error box, and the script goes on without an image; a failure while a
    stored image is decoded, opened or shown in the history is caught and
    passed over, and the record's time stamp, prompt, response and rule are
    drawn all the same. *)
Theorem C7_image_failures_are_caught (W : World) :
  (forall (f : UploadedFile) (s : state W),
      read_upload W (Some f) s
      = match Image_open W (file_data f) with
        | Ok im => (Ret (Some im), s)
        | Raise e =>
          (Ret None,
           mkState W (db W s)
             (ErrorBox W (lit "Error reading image: " ++ exc_str e) :: ui W s)
             (api W s))
        end)
  /\ (forall (idx : N) (user_prompt bot_resp timestamp : option str)
        (c : N) (b64 : str) (s : state W),
      render_convo W idx (user_prompt, Some (c :: b64), bot_resp, timestamp) s
      = (Ret tt,
         mkState W (db W s)
           (SidebarText W (lit "---")
            :: SidebarMarkdown W (lit "**Bot Response**: " ++ fmt bot_resp)
            :: match decode_stored W (c :: b64) with
               | Ok img => [SidebarImage W img (lit "Uploaded Image")]
               | Raise _ => []
               end
            ++ SidebarMarkdown W (lit "**User Prompt**: " ++ fmt user_prompt)
            :: SidebarMarkdown W
                 (lit "**" ++ str_of_N idx ++ lit ". Timestamp**: "
                  ++ fmt timestamp)
            :: ui W s)
           (api W s))).
Proof.
  split.
  - intros f s. rewrite read_upload_eq. unfold opened.
    destruct (Image_open W (file_data f)); destruct s; reflexivity.
  - intros idx p r ts c b64 s. rewrite render_convo_eq.
    unfold convo_elements.
    destruct (decode_stored W (c :: b64)); reflexivity.
Qed.

(** C8: a rerun never changes or removes a row that is already stored; all
    it can do to the table is append one row.  In every reachable state the
    rowids grow with insertion order and every row has a time stamp; the
    appended row gets the time stamp of the rerun and a rowid above all
    stored ones. *)
Theorem C8_rows_are_only_appended (W : World)
    (secrets : option (gmap string str)) (now : datetime) (w : widgets)
    (d : option table) :
  reachable W d ->
  table_ok (table_of d)
  /\ exists new,
      rows_of (db W (run W secrets now w d).2) = rows_of d ++ new
      /\ (length new <= 1)%nat
      /\ Forall (fun r =>
                   timestamp r = Some (strftime now)
                   /\ strftime now <> []
                   /\ Forall (fun x => (id x < id r)%Z) (rows_of d)) new
      /\ rowids_increasing (rows_of d ++ new).
Proof.
  intros Hreach. split; [exact (reachable_ok W d Hreach) |].
  pose proof (reachable_ok W _ (reachable_run W secrets now w d Hreach)) as [Hinc _].
  rewrite rows_table_of in Hinc.
  destruct (run_rows_cases W secrets now w d) as [[Hrows _] | (k & b & _ & _ & Hrows)].
  - exists []. rewrite app_nil_r. repeat split.
    + exact Hrows.
    + cbn. lia.
    + constructor.
    + rewrite <- Hrows. exact Hinc.
  - eexists. split; [exact Hrows |]. repeat split.
    + cbn. lia.
    + constructor; [| constructor]. cbn [timestamp id]. repeat split.
      * apply strftime_nonempty.
      * rewrite <- rows_table_of. apply next_rowid_fresh.
    + rewrite <- Hrows. exact Hinc.
Qed.

Lemma C8_rows_are_only_appended_witness :
  table_ok (table_of toy_db1)
  /\ exists new,
      rows_of
        (db (toy_world true)
           (run (toy_world true) toy_secrets toy_now grey_submission toy_db1).2)
      = rows_of toy_db1 ++ new
      /\ (length new <= 1)%nat
      /\ Forall (fun r =>
                   timestamp r = Some (strftime toy_now)
                   /\ strftime toy_now <> []
                   /\ Forall (fun x => (id x < id r)%Z) (rows_of toy_db1)) new
      /\ rowids_increasing (rows_of toy_db1 ++ new).
Proof.
  apply (C8_rows_are_only_appended (toy_world true) toy_secrets toy_now
           grey_submission toy_db1).
  exact (reachable_run (toy_world true) toy_secrets toy_now text_submission _
           (reachable_fresh (toy_world true))).
Defined.

(** An image leaves the script only as PNG: the image part of a request
    that was sent, and the image column of a row that was added, hold the
    base64 text of the bytes the PNG writer produced for the opened
    upload. *)
Lemma images_leave_only_as_png (W : World)
    (secrets : option (gmap string str)) (now : datetime) (w : widgets)
    (d : option table) :
  (forall key req url,
      In (key, req) (sent W (run W secrets now w d)) ->
      In (ImageUrlPart url) (concat (map content (messages req))) ->
      exists f im data,
        uploaded_image w = Some f
        /\ Image_open W (file_data f) = Ok im
        /\ Image_save_png W im = Ok data
        /\ url = lit "data:image/png;base64," ++ base64_text data)
  /\ (forall new r s,
        rows_of (db W (run W secrets now w d).2) = rows_of d ++ new ->
        In r new ->
        base64_image r = Some s ->
        exists f im data,
          uploaded_image w = Some f
          /\ Image_open W (file_data f) = Ok im
          /\ Image_save_png W im = Ok data
          /\ s = base64_text data
          /\ b64decode s = Ok data).
Proof.
  split.
  - intros key req url Hsent Hpart.
    destruct (run_sent_inv W secrets now w d key req Hsent) as (b & Henc & -> & _).
    cbn [build_request messages content map concat] in Hpart.
    rewrite app_nil_r in Hpart. unfold content_list in Hpart.
    destruct Hpart as [Hpart | Hpart]; [discriminate |].
    destruct b as [[|c s]|]; try contradiction.
    destruct Hpart as [Hpart | []]. injection Hpart as <-.
    destruct (encode_optional_Some W _ _ Henc) as (im & data & Hopened & Hsave & Hs).
    destruct (opened_Some W _ _ Hopened) as (f & Hf & Hopen).
    exists f, im, data. rewrite Hs. repeat split; assumption.
  - intros new r s Hrows Hin Himg.
    destruct (run_rows_cases W secrets now w d)
      as [[Hrows' _] | (k & b & Henc & _ & Hrows')];
      rewrite Hrows' in Hrows.
    + rewrite <- (app_nil_r (rows_of d)) in Hrows at 1.
      apply app_inv_head in Hrows. subst new. contradiction.
    + apply app_inv_head in Hrows. subst new.
      destruct Hin as [<- | []]. cbn [base64_image] in Himg. subst b.
      destruct (encode_optional_Some W _ _ Henc) as (im & data & Hopened & Hsave & Hs).
      destruct (opened_Some W _ _ Hopened) as (f & Hf & Hopen).
      exists f, im, data. subst s. repeat split; try assumption.
      apply b64decode_base64_text.
Qed.

(** C9: whatever the type of the uploaded file, a Send with an upload that
    opens re-encodes the image as PNG before it goes anywhere.  When the
    PNG writer returns the file [data], [encode_image_to_base64] returns
    the base64 text of [data]; the one request sent carries, after the
    prompt, the image part [data:image/png;base64,] followed by that text;
    and the one row added stores that text, which decodes back to [data].
    When the PNG writer refuses the image, nothing is sent and nothing is
    stored. *)
Theorem C9_uploads_leave_as_png (W : World)
    (secrets : option (gmap string str)) (now : datetime) (w : widgets)
    (d : option table) (k : str) (f : UploadedFile) (im : Image W) :
  png_nonempty W ->
  has_key secrets k ->
  send_clicked w = true ->
  uploaded_image w = Some f ->
  Image_open W (file_data f) = Ok im ->
  match Image_save_png W im with
  | Ok data =>
    encode_image_to_base64 W im = Ok (base64_text data)
    /\ b64decode (base64_text data) = Ok data
    /\ sent W (run W secrets now w d)
       = [(k, mkRequest (lit "gpt-4o-mini")
                [mkMessage (lit "user")
                   [TextPart (prompt_text w);
                    ImageUrlPart (lit "data:image/png;base64,"
                                  ++ base64_text data)]]
                300)]
    /\ exists r,
        rows_of (db W (run W secrets now w d).2)
        = rows_of d
          ++ [mkRow (next_rowid (table_of d)) (Some (prompt_text w))
                (Some (base64_text data)) (Some r) (Some (strftime now))]
  | Raise e =>
    encode_image_to_base64 W im = Raise e
    /\ sent W (run W secrets now w d) = []
    /\ rows_of (db W (run W secrets now w d).2) = rows_of d
  end.
Proof.
  intros Hpng Hk Hsend Hf Hopen.
  assert (Hopened : opened W (uploaded_image w) = Some im).
  { rewrite Hf. unfold opened. now rewrite Hopen. }
  assert (Hacc : accepted W w = true).
  { unfold accepted. rewrite Hopened. apply orb_true_r. }
  pose proof (encode_image_to_base64_eq W im) as Heq.
  destruct (Image_save_png W im) as [data|e] eqn:Hsave; cbn [result_map] in Heq.
  - assert (Hopt : encode_optional W (opened W (uploaded_image w))
                   = Ok (Some (base64_text data))).
    { rewrite Hopened. cbn. now rewrite Heq. }
    assert (Hs : exists c s', base64_text data = c :: s').
    { destruct (base64_text data) as [|c s'] eqn:Htext; [| now exists c, s'].
      apply base64_text_nil in Htext. subst data. now destruct (Hpng im). }
    destruct Hs as (c & s' & Hs).
    pose proof (run_submitted W secrets now w d k _ Hk Hsend Hacc Hopt) as Hrun.
    cbv zeta in Hrun. rewrite Hrun. unfold sent.
    cbn [fst snd db api rev app rows_of insert_row rows].
    rewrite rows_table_of.
    split; [exact Heq |]. split; [apply b64decode_base64_text |].
    split; [| eexists; reflexivity].
    unfold build_request, content_list. rewrite Hs. reflexivity.
  - assert (Hopt : encode_optional W (opened W (uploaded_image w)) = Raise e).
    { rewrite Hopened. cbn. now rewrite Heq. }
    rewrite (run_encode_error W secrets now w d k e Hk Hsend Hacc Hopt).
    unfold sent. cbn [snd db api rev rows_of].
    rewrite rows_table_of. repeat split. exact Heq.
Qed.

Lemma C9_uploads_leave_as_png_witness :
  file_type rgb_jpg = jpg
  /\ Image_open (toy_world true) (file_data rgb_jpg) = Ok rgb_image
  /\ Image_save_png (toy_world true) rgb_image = Ok rgb_png_data
  /\ encode_image_to_base64 (toy_world true) rgb_image
     = Ok (base64_text rgb_png_data)
  /\ b64decode (base64_text rgb_png_data) = Ok rgb_png_data
  /\ sent (toy_world true)
       (run (toy_world true) toy_secrets toy_now rgb_submission None)
     = [(lit "sk-test",
         mkRequest (lit "gpt-4o-mini")
           [mkMessage (lit "user")
              [TextPart (prompt_text rgb_submission);
               ImageUrlPart (lit "data:image/png;base64,"
                             ++ base64_text rgb_png_data)]]
           300)]
  /\ exists r,
      rows_of
        (db (toy_world true)
           (run (toy_world true) toy_secrets toy_now rgb_submission None).2)
      = rows_of None
        ++ [mkRow (next_rowid (table_of None))
              (Some (prompt_text rgb_submission))
              (Some (base64_text rgb_png_data)) (Some r)
              (Some (strftime toy_now))].
Proof.
  split; [reflexivity |]. split; [reflexivity |]. split; [reflexivity |].
  exact (C9_uploads_leave_as_png (toy_world true) toy_secrets toy_now
           rgb_submission None (lit "sk-test") rgb_jpg rgb_image
           (toy_png_nonempty true) toy_has_key eq_refl eq_refl eq_refl).
Defined.

(** C10, as stated, fails: the prompt is blank and the upload opens as an
    image, yet no request is sent and no row is added, because the image is
    a CMYK JPEG that cannot be written as PNG. *)
Lemma C10_blank_prompt_cmyk_image_is_not_sent :
  send_clicked blank_cmyk_submission = true
  /\ blank (prompt_text blank_cmyk_submission)
  /\ truthy (opened (toy_world true) (uploaded_image blank_cmyk_submission))
     = true
  /\ sent (toy_world true)
       (run (toy_world true) toy_secrets toy_now blank_cmyk_submission None)
     = []
  /\ rows_of
       (db (toy_world true)
          (run (toy_world true) toy_secrets toy_now blank_cmyk_submission None).2)
     = rows_of None.
Proof.
  repeat split; try reflexivity. repeat constructor.
Qed.

(** C10 (amended): a submission whose prompt is empty or white space only
    but whose image PIL can write as PNG is accepted: one request is sent,
    holding the prompt as it was typed and the image as a PNG data URL, and
    one row is added with that prompt, the encoded image and the reply. *)
Theorem C10_blank_prompt_with_image_is_accepted (W : World)
    (secrets : option (gmap string str)) (now : datetime) (w : widgets)
    (d : option table) (k : str) (im : Image W) (s : str) :
  png_nonempty W ->
  has_key secrets k ->
  send_clicked w = true ->
  blank (prompt_text w) ->
  opened W (uploaded_image w) = Some im ->
  encode_image_to_base64 W im = Ok s ->
  let req :=
    mkRequest (lit "gpt-4o-mini")
      [mkMessage (lit "user")
         [TextPart (prompt_text w);
          ImageUrlPart (lit "data:image/png;base64," ++ s)]]
      300 in
  (run W secrets now w d).1 = Ret tt
  /\ sent W (run W secrets now w d) = [(k, req)]
  /\ rows_of (db W (run W secrets now w d).2)
     = rows_of d
       ++ [mkRow (next_rowid (table_of d)) (Some (prompt_text w)) (Some s)
             (Some (reply W k req)) (Some (strftime now))].
Proof.
  intros Hpng Hk Hsend _ Hopened Henc. cbv zeta.
  assert (Hacc : accepted W w = true).
  { unfold accepted. rewrite Hopened. apply orb_true_r. }
  assert (Hopt : encode_optional W (opened W (uploaded_image w)) = Ok (Some s)).
  { rewrite Hopened. cbn. now rewrite Henc. }
  assert (Hs : exists c s', s = c :: s').
  { rewrite encode_image_to_base64_eq in Henc.
    destruct (Image_save_png W im) as [data|e] eqn:Hsave; [| discriminate].
    cbn in Henc. injection Henc as <-.
    destruct (base64_text data) as [|c s'] eqn:Htext; [| now exists c, s'].
    apply base64_text_nil in Htext. subst data. now destruct (Hpng im). }
  destruct Hs as (c & s' & ->).
  rewrite (run_submitted W secrets now w d k _ Hk Hsend Hacc Hopt).
  unfold sent. cbn [fst snd db api rev app rows_of insert_row rows].
  rewrite rows_table_of. repeat split.
Qed.

Lemma C10_blank_prompt_with_image_witness :
  blank (prompt_text grey_submission)
  /\ (run (toy_world true) toy_secrets toy_now grey_submission None).1 = Ret tt
  /\ sent (toy_world true)
       (run (toy_world true) toy_secrets toy_now grey_submission None)
     = [(lit "sk-test",
         mkRequest (lit "gpt-4o-mini")
           [mkMessage (lit "user")
              [TextPart (lit " ");
               ImageUrlPart (lit "data:image/png;base64,iQABAX8=")]]
           300)]
  /\ rows_of
       (db (toy_world true)
          (run (toy_world true) toy_secrets toy_now grey_submission None).2)
     = [mkRow 1 (Some (lit " ")) (Some (lit "iQABAX8=")) (Some (lit "Hello!"))
          (Some (lit "2024-03-09 14:05:07"))].
Proof.
  assert (Hblank : blank (prompt_text grey_submission)) by (repeat constructor).
  split; [exact Hblank |].
  exact (C10_blank_prompt_with_image_is_accepted (toy_world true) toy_secrets
           toy_now grey_submission None (lit "sk-test") grey_image
           (lit "iQABAX8=") (toy_png_nonempty true) toy_has_key eq_refl Hblank
           eq_refl eq_refl).
Defined.

(** ** Further properties of the script *)

(** X1: a key that is present but empty makes the guard fire: the script
    draws its own message, calls [st.stop()], and nothing after the guard
    runs (no table is created, no widget is drawn, no request is sent). *)
Theorem X1_empty_key_stops_with_message (W : World) (m : gmap string str)
    (now : datetime) (w : widgets) (d : option table) :
  m !! "OPENAI_API_KEY"%string = Some ([] : str) ->
  run W (Some m) now w d =
  (Halt,
   mkState W d
     [ErrorBox W (lit "OpenAI API key not found. Please set OPENAI_API_KEY in .env or environment variables.")]
     []).
Proof. apply run_empty_key. Qed.

Lemma X1_empty_key_witness :
  empty_key_secrets !! "OPENAI_API_KEY"%string = Some ([] : str)
  /\ run (toy_world true) (Some empty_key_secrets) toy_now text_submission None =
     (Halt,
      mkState (toy_world true) None
        [ErrorBox (toy_world true) (lit "OpenAI API key not found. Please set OPENAI_API_KEY in .env or environment variables.")]
        []).
Proof.
  split; [reflexivity |].
  apply (X1_empty_key_stops_with_message (toy_world true) empty_key_secrets
           toy_now text_submission None).
  reflexivity.
Defined.

(** X2: a rerun in which Send is not clicked returns normally, sends no
    request and leaves the table exactly as it was (creating it empty when
    the file had none), whatever is typed, uploaded or clicked in the
    sidebar. *)
Theorem X2_rerun_without_send_writes_nothing (W : World)
    (secrets : option (gmap string str)) (now : datetime) (w : widgets)
    (d : option table) (k : str) :
  has_key secrets k ->
  send_clicked w = false ->
  (run W secrets now w d).1 = Ret tt
  /\ sent W (run W secrets now w d) = []
  /\ db W (run W secrets now w d).2 = Some (table_of d).
Proof.
  intros Hk Hsend. rewrite run_eq.
  destruct (secrets_getitem_has_key secrets k Hk) as [-> ->].
  cbn [negb]. cbv zeta. rewrite Hsend. cbn [andb]. repeat split.
Qed.

Lemma X2_rerun_without_send_witness :
  send_clicked load_only = false
  /\ (run (toy_world true) toy_secrets toy_now load_only toy_db2).1 = Ret tt
  /\ sent (toy_world true)
       (run (toy_world true) toy_secrets toy_now load_only toy_db2) = []
  /\ db (toy_world true)
       (run (toy_world true) toy_secrets toy_now load_only toy_db2).2
     = Some (table_of toy_db2).
Proof.
  split; [reflexivity |].
  apply (X2_rerun_without_send_writes_nothing (toy_world true) toy_secrets
           toy_now load_only toy_db2 (lit "sk-test")).
  - apply toy_has_key.
  - reflexivity.
Defined.

(** The row with the largest rowid comes first. *)
Lemma order_by_id_desc_snoc (l : list row) (r : row) :
  Forall (fun x => (id x < id r)%Z) l ->
  order_by_id_desc (l ++ [r]) = r :: order_by_id_desc l.
Proof.
  induction 1 as [|x l Hx _ IH]; [reflexivity |].
  change (order_by_id_desc ((x :: l) ++ [r]))
    with (insert_desc x (order_by_id_desc (l ++ [r]))).
  rewrite IH. cbn [insert_desc].
  destruct (Z.ltb_spec (id r) (id x)); [lia | reflexivity].
Qed.

(** X3: saving and then loading, on any table that still has a rowid to
    hand out: [load_conversations] returns the record just saved first,
    followed by exactly what it returned before the save. *)
Theorem X3_saved_record_is_loaded_first (W : World) (now : datetime)
    (prompt : str) (image : option str) (response : str) (t : table)
    (u : list (element W)) (a : list (str * request)) :
  (next_rowid t <= SQLITE_MAX_ROWID)%Z ->
  bind W (save_conversation W now prompt image response)
         (fun _ => load_conversations W) (mkState W (Some t) u a)
  = (Ret ((Some prompt, image, Some response, Some (strftime now))
          :: select_desc t),
     mkState W
       (Some (insert_row t (Some prompt) image (Some response)
                (Some (strftime now))))
       u a).
Proof.
  intros _.
  unfold bind, save_conversation, execute_insert, load_conversations.
  cbn [db ui api]. unfold select_desc, insert_row. cbn [rows].
  rewrite order_by_id_desc_snoc by apply next_rowid_fresh.
  reflexivity.
Qed.

Lemma X3_saved_record_witness :
  (next_rowid (table_of toy_db2) <= SQLITE_MAX_ROWID)%Z
  /\ bind (toy_world true)
       (save_conversation (toy_world true) toy_now (lit "Hello?") None
          (lit "Hello!"))
       (fun _ => load_conversations (toy_world true))
       (mkState (toy_world true) (Some (table_of toy_db2)) [] [])
     = (Ret ((Some (lit "Hello?"), None, Some (lit "Hello!"),
              Some (strftime toy_now))
             :: select_desc (table_of toy_db2)),
        mkState (toy_world true)
          (Some (insert_row (table_of toy_db2) (Some (lit "Hello?")) None
                   (Some (lit "Hello!")) (Some (strftime toy_now))))
          [] []).
Proof.
  assert (Hroom : (next_rowid (table_of toy_db2) <= SQLITE_MAX_ROWID)%Z)
    by (vm_compute; discriminate).
  split; [exact Hroom |].
  exact (X3_saved_record_is_loaded_first (toy_world true) toy_now
           (lit "Hello?") None (lit "Hello!") (table_of toy_db2) [] [] Hroom).
Defined.


(** The encoder writes four characters for every three bytes, the last
    group padded. *)
Lemma length_b64encode (s : bytes) :
  length (b64encode s) = (4 * ((length s + 2) / 3))%nat.
Proof.
  induction s as [|x|x y|x y z r IH] using list_ind3; try reflexivity.
  cbn [b64encode length]. rewrite IH.
  replace (S (S (S (length r))) + 2)%nat with (1 * 3 + (length r + 2))%nat by lia.
  rewrite Nat.div_add_l by lia. lia.
Qed.

(** Every character the encoder writes is one the decoder reads: a pad or
    a character of the alphabet. *)
Lemma b64encode_alphabet (s : bytes) :
  Forall (fun b => Byte.to_N b = BASE64_PAD
                   \/ exists v, table_a2b_base64 (Byte.to_N b) = Some v)
         (b64encode s).
Proof.
  assert (Hd : forall i, i < 64 ->
             Byte.to_N (b64_digit i) = BASE64_PAD
             \/ exists v, table_a2b_base64 (Byte.to_N (b64_digit i)) = Some v).
  { intros i Hi. right. exists i.
    rewrite to_N_b64_digit by exact Hi. now apply table_a2b_b2a. }
  assert (Hp : Byte.to_N (byte_of_N BASE64_PAD) = BASE64_PAD
               \/ exists v, table_a2b_base64 (Byte.to_N (byte_of_N BASE64_PAD))
                            = Some v) by now left.
  induction s as [|x|x y|x y z r IH] using list_ind3; cbn [b64encode].
  - constructor.
  - pose proof (to_N_lt_256 x).
    repeat (constructor; [first [exact Hp | apply Hd; dlia] |]). constructor.
  - pose proof (to_N_lt_256 x). pose proof (to_N_lt_256 y).
    repeat (constructor; [first [exact Hp | apply Hd; dlia] |]). constructor.
  - pose proof (to_N_lt_256 x). pose proof (to_N_lt_256 y).
    pose proof (to_N_lt_256 z).
    repeat (constructor; [apply Hd; dlia |]). exact IH.
Qed.

(** X5: [encode_image_to_base64] raises exactly when the PNG writer raises,
    and then the same exception (decoding the base64 bytes as UTF-8 never
    fails).  When the writer returns [n] bytes, the result is a text of
    [4 * ceil(n / 3)] characters, each of them [=] or a character of the
    base64 alphabet. *)
Theorem X5_encode_image_to_base64_result (W : World) (im : Image W) :
  match Image_save_png W im with
  | Raise e => encode_image_to_base64 W im = Raise e
  | Ok data =>
    exists s,
      encode_image_to_base64 W im = Ok s
      /\ length s = (4 * ((length data + 2) / 3))%nat
      /\ Forall (fun c => c = BASE64_PAD
                          \/ exists v, table_a2b_base64 c = Some v) s
  end.
Proof.
  rewrite encode_image_to_base64_eq.
  destruct (Image_save_png W im) as [data|e]; [| reflexivity].
  exists (base64_text data). unfold base64_text. repeat split.
  - rewrite length_map. apply length_b64encode.
  - apply List.Forall_map. apply b64encode_alphabet.
Qed.

(** X6: [analyze_image_with_prompt] draws nothing and does not touch the
    database.  When the image cannot be encoded it raises the encoder's
    exception and sends nothing.  Otherwise it sends exactly one request:
    model [gpt-4o-mini], a token budget of 300, a single user message whose
    first part is the prompt as given, followed by at most one image part;
    it returns the endpoint's answer or raises the endpoint's exception. *)
Theorem X6_analyze_sends_one_request (W : World) (API_KEY : str)
    (image : option (Image W)) (prompt : str) (s : state W) :
  db W (analyze_image_with_prompt W API_KEY image prompt s).2 = db W s
  /\ ui W (analyze_image_with_prompt W API_KEY image prompt s).2 = ui W s
  /\ match encode_optional W image with
     | Raise e =>
       (analyze_image_with_prompt W API_KEY image prompt s).1 = Exc e
       /\ api W (analyze_image_with_prompt W API_KEY image prompt s).2 = api W s
     | Ok b =>
       exists req parts,
         api W (analyze_image_with_prompt W API_KEY image prompt s).2
         = (API_KEY, req) :: api W s
         /\ model req = lit "gpt-4o-mini"
         /\ max_tokens req = 300
         /\ messages req = [mkMessage (lit "user") (TextPart prompt :: parts)]
         /\ (length parts <= 1)%nat
         /\ (analyze_image_with_prompt W API_KEY image prompt s).1
            = match chat_completions_create W API_KEY req with
              | Ok r => Ret r
              | Raise e => Exc e
              end
     end.
Proof.
  unfold analyze_image_with_prompt, load_model, create, bind, lift.
  cbn [api_key]. destruct (encode_optional W image) as [b|e].
  - cbn [fst snd db ui api].
    destruct (chat_completions_create W API_KEY (build_request prompt b)) eqn:Hc;
      cbn [fst snd db ui api]; (split; [reflexivity |]); (split; [reflexivity |]);
      eexists (build_request prompt b), _;
      (repeat split; [| rewrite Hc; reflexivity]);
      destruct b as [[|c b]|]; cbn; lia.
  - cbn [fst snd db ui api]. repeat split.
Qed.

(** X7: an upload that [Image.open] rejects is treated as no upload at all:
    the error is reported in an error box, and apart from that the rerun
    ends the same way, leaves the same database and sends the same requests
    as with nothing uploaded. *)
Theorem X7_unreadable_upload_counts_as_none (W : World)
    (secrets : option (gmap string str)) (now : datetime) (d : option table)
    (k prompt : str) (f : UploadedFile) (send load : bool) (e : exception) :
  has_key secrets k ->
  Image_open W (file_data f) = Raise e ->
  (run W secrets now (mkWidgets prompt (Some f) send load) d).1
  = (run W secrets now (mkWidgets prompt None send load) d).1
  /\ db W (run W secrets now (mkWidgets prompt (Some f) send load) d).2
     = db W (run W secrets now (mkWidgets prompt None send load) d).2
  /\ sent W (run W secrets now (mkWidgets prompt (Some f) send load) d)
     = sent W (run W secrets now (mkWidgets prompt None send load) d)
  /\ In (ErrorBox W (lit "Error reading image: " ++ exc_str e))
        (drawn W (run W secrets now (mkWidgets prompt (Some f) send load) d)).
Proof.
  intros Hk Hopen. unfold sent, drawn. rewrite !run_eq.
  destruct (secrets_getitem_has_key secrets k Hk) as [-> ->].
  cbn [negb]. cbv zeta. unfold accepted, opened.
  cbn [prompt_text uploaded_image send_clicked load_all_clicked].
  rewrite Hopen. cbn [truthy encode_optional].
  assert (Hin : forall rest : list (element W),
    In (ErrorBox W (lit "Error reading image: " ++ exc_str e))
       (rev (rest ++ rev (header_elements W (mkWidgets prompt (Some f) send load))))).
  { intros rest. rewrite rev_app_distr, rev_involutive. apply in_or_app. left.
    unfold header_elements. cbn [uploaded_image]. rewrite Hopen.
    apply in_or_app. right. apply in_or_app. left. now left. }
  destruct (send && (str_truthy (strip prompt) || false));
    cbn [fst snd db ui api]; (split; [reflexivity |]);
    (split; [reflexivity |]); (split; [reflexivity |]).
  - match goal with
    | |- In _ (rev (?s ++ ?a :: ?b :: ?c :: ?h)) =>
      change (s ++ a :: b :: c :: h) with (s ++ [a; b; c] ++ h)
    end.
    rewrite app_assoc. apply Hin.
  - rewrite app_assoc. apply Hin.
Qed.

Lemma X7_unreadable_upload_witness :
  Image_open (toy_world true) (file_data broken_upload)
  = Raise UnidentifiedImageError
  /\ (run (toy_world true) toy_secrets toy_now
        (mkWidgets (lit "Hello?") (Some broken_upload) true false) None).1
     = (run (toy_world true) toy_secrets toy_now
          (mkWidgets (lit "Hello?") None true false) None).1
  /\ db (toy_world true)
       (run (toy_world true) toy_secrets toy_now
          (mkWidgets (lit "Hello?") (Some broken_upload) true false) None).2
     = db (toy_world true)
         (run (toy_world true) toy_secrets toy_now
            (mkWidgets (lit "Hello?") None true false) None).2
  /\ sent (toy_world true)
       (run (toy_world true) toy_secrets toy_now
          (mkWidgets (lit "Hello?") (Some broken_upload) true false) None)
     = sent (toy_world true)
         (run (toy_world true) toy_secrets toy_now
            (mkWidgets (lit "Hello?") None true false) None)
  /\ In (ErrorBox (toy_world true)
           (lit "Error reading image: " ++ exc_str UnidentifiedImageError))
        (drawn (toy_world true)
           (run (toy_world true) toy_secrets toy_now
              (mkWidgets (lit "Hello?") (Some broken_upload) true false) None)).
Proof.
  split; [reflexivity |].
  apply (X7_unreadable_upload_counts_as_none (toy_world true) toy_secrets
           toy_now None (lit "sk-test") (lit "Hello?") broken_upload true false
           UnidentifiedImageError).
  - apply toy_has_key.
  - reflexivity.
Defined.

(** What a rerun draws, oldest first, once the key is there. *)
Lemma drawn_submitted (W : World) (secrets : option (gmap string str))
    (now : datetime) (w : widgets) (d : option table) (k : str)
    (b : option str) :
  has_key secrets k -> send_clicked w = true -> accepted W w = true ->
  encode_optional W (opened W (uploaded_image w)) = Ok b ->
  drawn W (run W secrets now w d)
  = header_elements W w
    ++ [Spinner W (lit "Analyzing..."); Subheader W (lit "Response:");
        Text W (reply W k (build_request (prompt_text w) b))]
    ++ sidebar_elements W w
         (insert_row (table_of d) (Some (prompt_text w)) b
            (Some (reply W k (build_request (prompt_text w) b)))
            (Some (strftime now))).
Proof.
  intros Hk Hsend Hacc Henc. unfold drawn.
  rewrite (run_submitted W secrets now w d k b Hk Hsend Hacc Henc).
  cbn [snd ui]. rewrite rev_app_distr, rev_involutive. cbn [rev].
  rewrite rev_involutive, <- !app_assoc. reflexivity.
Qed.

Lemma drawn_not_submitted (W : World) (secrets : option (gmap string str))
    (now : datetime) (w : widgets) (d : option table) (k : str) :
  has_key secrets k -> send_clicked w && accepted W w = false ->
  drawn W (run W secrets now w d)
  = header_elements W w
    ++ (if send_clicked w
        then [WarningBox W (lit "Please provide a prompt or an image.")]
        else [])
    ++ sidebar_elements W w (table_of d).
Proof.
  intros Hk Hno. unfold drawn. rewrite run_eq.
  destruct (secrets_getitem_has_key secrets k Hk) as [-> ->].
  cbn [negb]. cbv zeta. rewrite Hno. cbn [snd ui].
  rewrite !rev_app_distr, !rev_involutive.
  destruct (send_clicked w); cbn [rev app]; now rewrite <- ?app_assoc.
Qed.

Lemma select_desc_insert_row (t : table) (p b r ts : option str) :
  select_desc (insert_row t p b r ts) = (p, b, r, ts) :: select_desc t.
Proof.
  unfold select_desc, insert_row. cbn [rows].
  rewrite order_by_id_desc_snoc by apply next_rowid_fresh. reflexivity.
Qed.

(** X8: when Send and Load All are clicked in the same rerun and the
    submission goes through, the history already shows the record just
    saved, as number 1, with the time stamp of this rerun and the prompt as
    typed. *)
Theorem X8_history_starts_with_the_new_record (W : World)
    (secrets : option (gmap string str)) (now : datetime) (w : widgets)
    (d : option table) (k : str) (b : option str) :
  has_key secrets k ->
  send_clicked w = true ->
  load_all_clicked w = true ->
  accepted W w = true ->
  encode_optional W (opened W (uploaded_image w)) = Ok b ->
  exists before after,
    drawn W (run W secrets now w d)
    = before
      ++ [SidebarButton W (lit "Load All");
          SidebarMarkdown W (lit "**1. Timestamp**: " ++ strftime now);
          SidebarMarkdown W (lit "**User Prompt**: " ++ prompt_text w)]
      ++ after.
Proof.
  intros Hk Hsend Hload Hacc Henc.
  rewrite (drawn_submitted W secrets now w d k b Hk Hsend Hacc Henc).
  unfold sidebar_elements, load_all_elements. rewrite Hload.
  rewrite select_desc_insert_row. cbn [history_elements convo_elements].
  eexists (header_elements W w
           ++ [Spinner W (lit "Analyzing..."); Subheader W (lit "Response:");
               Text W (reply W k (build_request (prompt_text w) b));
               SidebarHeader W (lit "View Stored Conversations")]), _.
  rewrite <- !app_assoc. cbn [app fmt]. reflexivity.
Qed.

Lemma X8_history_witness :
  load_all_clicked grey_submission = true
  /\ exists before after,
      drawn (toy_world true)
        (run (toy_world true) toy_secrets toy_now grey_submission toy_db1)
      = before
        ++ [SidebarButton (toy_world true) (lit "Load All");
            SidebarMarkdown (toy_world true)
              (lit "**1. Timestamp**: " ++ strftime toy_now);
            SidebarMarkdown (toy_world true)
              (lit "**User Prompt**: " ++ prompt_text grey_submission)]
        ++ after.
Proof.
  split; [reflexivity |].
  exact (X8_history_starts_with_the_new_record (toy_world true) toy_secrets
           toy_now grey_submission toy_db1 (lit "sk-test")
           (Some (lit "iQABAX8=")) toy_has_key eq_refl eq_refl eq_refl eq_refl).
Defined.

(** The sidebar texts of the history are the rules between records. *)
Lemma history_sidebar_text (W : World) (l : list record) (idx : N) (s : str) :
  In (SidebarText W s) (history_elements W idx l) -> s = lit "---".
Proof.
  revert idx. induction l as [|[[[p b] r] ts] l IH]; intros idx; cbn [history_elements];
    [intros [] |].
  intros Hin. apply in_app_or in Hin. destruct Hin as [Hin | Hin]; [| eauto].
  unfold convo_elements in Hin.
  apply in_app_or in Hin. destruct Hin as [Hin | Hin].
  { destruct Hin as [Hin | [Hin | []]]; discriminate Hin. }
  apply in_app_or in Hin. destruct Hin as [Hin | Hin].
  - destruct b as [[|c b]|]; try contradiction.
    destruct (decode_stored W (c :: b)); [| contradiction].
    destruct Hin as [Hin | []]; discriminate Hin.
  - destruct Hin as [Hin | [Hin | []]]; [discriminate Hin |].
    now injection Hin as <-.
Qed.

Lemma select_desc_nil (t : table) : select_desc t = [] <-> rows t = [].
Proof.
  unfold select_desc. split.
  - intros H. apply map_eq_nil in H.
    pose proof (order_by_id_desc_perm (rows t)) as Hp. rewrite H in Hp.
    now apply Permutation_nil.
  - intros ->. reflexivity.
Qed.

(** X9: with Load All clicked (and Send not), the sidebar says that no
    conversations were found exactly when the table has no rows. *)
Theorem X9_no_conversations_iff_empty (W : World)
    (secrets : option (gmap string str)) (now : datetime) (w : widgets)
    (d : option table) (k : str) :
  has_key secrets k ->
  send_clicked w = false ->
  load_all_clicked w = true ->
  In (SidebarText W (lit "No conversations found."))
     (drawn W (run W secrets now w d))
  <-> rows_of d = [].
Proof.
  intros Hk Hsend Hload.
  rewrite (drawn_not_submitted W secrets now w d k Hk)
    by (rewrite Hsend; reflexivity).
  rewrite Hsend. cbn [app].
  unfold sidebar_elements, load_all_elements. rewrite Hload.
  rewrite <- rows_table_of, <- select_desc_nil.
  destruct (select_desc (table_of d)) as [|convo rest] eqn:Hsel.
  - split; [reflexivity |]. intros _. apply in_or_app. right.
    right. right. now left.
  - split; [| discriminate]. intros Hin. exfalso.
    apply in_app_or in Hin. destruct Hin as [Hin | Hin].
    + unfold header_elements in Hin.
      apply in_app_or in Hin. destruct Hin as [Hin | Hin].
      { destruct Hin as [Hin | [Hin | [Hin | [Hin | []]]]]; discriminate Hin. }
      apply in_app_or in Hin. destruct Hin as [Hin | Hin].
      * destruct (uploaded_image w) as [f|]; [| contradiction].
        destruct (Image_open W (file_data f)); [contradiction |].
        destruct Hin as [Hin | []]; discriminate Hin.
      * destruct Hin as [Hin | []]; discriminate Hin.
    + destruct Hin as [Hin | [Hin | Hin]]; try discriminate Hin.
      apply history_sidebar_text in Hin. discriminate Hin.
Qed.

Lemma X9_no_conversations_witness :
  send_clicked load_only = false
  /\ load_all_clicked load_only = true
  /\ (In (SidebarText (toy_world true) (lit "No conversations found."))
         (drawn (toy_world true)
            (run (toy_world true) toy_secrets toy_now load_only None))
      <-> rows_of None = []).
Proof.
  split; [reflexivity |]. split; [reflexivity |].
  apply (X9_no_conversations_iff_empty (toy_world true) toy_secrets toy_now
           load_only None (lit "sk-test")).
  - apply toy_has_key.
  - reflexivity.
  - reflexivity.
Defined.

Lemma history_timestamp_line (W : World) (l : list record) (idx : N) (i : nat)
    (p b r ts : option str) :
  nth_error l i = Some (p, b, r, ts) ->
  In (SidebarMarkdown W
        (lit "**" ++ str_of_N (idx + N.of_nat i) ++ lit ". Timestamp**: "
         ++ fmt ts))
     (history_elements W idx l).
Proof.
  revert idx i. induction l as [|convo l IH]; intros idx [|i] Hi;
    try discriminate Hi; cbn [nth_error] in Hi; cbn [history_elements].
  - injection Hi as ->. apply in_or_app. left.
    rewrite N.add_0_r. now left.
  - apply in_or_app. right.
    replace (idx + N.of_nat (S i)) with (idx + 1 + N.of_nat i) by lia.
    now apply IH.
Qed.

(** X10: the history loop never fails and never writes, whatever the
    records hold (missing columns, text that is no base64, bytes that are
    no image): it returns normally, leaves the database and the sent
    requests as they were, and draws for the record at position [i]
    (counting from 0) a time-stamp line numbered [i + 1]. *)
Theorem X10_history_loop_numbers_every_record (W : World)
    (all_convos : list record) (s : state W) :
  (render_all W 1 all_convos s).1 = Ret tt
  /\ db W (render_all W 1 all_convos s).2 = db W s
  /\ api W (render_all W 1 all_convos s).2 = api W s
  /\ forall (i : nat) (p b r ts : option str),
      nth_error all_convos i = Some (p, b, r, ts) ->
      In (SidebarMarkdown W
            (lit "**" ++ str_of_N (N.of_nat i + 1) ++ lit ". Timestamp**: "
             ++ fmt ts))
         (ui W (render_all W 1 all_convos s).2).
Proof.
  rewrite render_all_eq. cbn [fst snd db ui api]. repeat split.
  intros i p b r ts Hi. apply in_or_app. left. rewrite <- in_rev.
  rewrite N.add_comm. now apply history_timestamp_line with p b r.
Qed.

(** X11: when an accepted submission reaches the endpoint and the endpoint
    answers, the answer is drawn under the Response heading and stored
    unchanged: one request is sent and one row is appended, holding the
    prompt as typed, the encoded image (or NULL without one), the answer
    and the time stamp of the rerun. *)
Theorem X11_answer_is_shown_and_stored (W : World)
    (secrets : option (gmap string str)) (now : datetime) (w : widgets)
    (d : option table) (k : str) (b : option str) (r : str) :
  has_key secrets k ->
  send_clicked w = true ->
  accepted W w = true ->
  encode_optional W (opened W (uploaded_image w)) = Ok b ->
  chat_completions_create W k (build_request (prompt_text w) b) = Ok r ->
  (run W secrets now w d).1 = Ret tt
  /\ sent W (run W secrets now w d) = [(k, build_request (prompt_text w) b)]
  /\ (exists before after,
        drawn W (run W secrets now w d)
        = before ++ [Subheader W (lit "Response:"); Text W r] ++ after)
  /\ rows_of (db W (run W secrets now w d).2)
     = rows_of d
       ++ [mkRow (next_rowid (table_of d)) (Some (prompt_text w)) b (Some r)
             (Some (strftime now))].
Proof.
  intros Hk Hsend Hacc Henc Hchat.
  assert (Hreply : reply W k (build_request (prompt_text w) b) = r)
    by (unfold reply; now rewrite Hchat).
  pose proof (drawn_submitted W secrets now w d k b Hk Hsend Hacc Henc) as Hdrawn.
  pose proof (run_submitted W secrets now w d k b Hk Hsend Hacc Henc) as Hrun.
  cbv zeta in Hrun. rewrite Hreply in Hrun, Hdrawn.
  split; [now rewrite Hrun |]. split; [unfold sent; now rewrite Hrun |]. split.
  - rewrite Hdrawn.
    exists (header_elements W w ++ [Spinner W (lit "Analyzing...")]).
    eexists. rewrite <- !app_assoc. reflexivity.
  - rewrite Hrun. cbn [snd db rows_of insert_row rows].
    now rewrite rows_table_of.
Qed.

Lemma X11_answer_witness :
  (run (toy_world true) toy_secrets toy_now text_submission None).1 = Ret tt
  /\ sent (toy_world true)
       (run (toy_world true) toy_secrets toy_now text_submission None)
     = [(lit "sk-test", build_request (prompt_text text_submission) None)]
  /\ (exists before after,
        drawn (toy_world true)
          (run (toy_world true) toy_secrets toy_now text_submission None)
        = before
          ++ [Subheader (toy_world true) (lit "Response:");
              Text (toy_world true) (lit "Hello!")]
          ++ after)
  /\ rows_of
       (db (toy_world true)
          (run (toy_world true) toy_secrets toy_now text_submission None).2)
     = rows_of None
       ++ [mkRow (next_rowid (table_of None))
             (Some (prompt_text text_submission)) None (Some (lit "Hello!"))
             (Some (strftime toy_now))].
Proof.
  exact (X11_answer_is_shown_and_stored (toy_world true) toy_secrets toy_now
           text_submission None (lit "sk-test") None (lit "Hello!")
           toy_has_key eq_refl eq_refl eq_refl eq_refl).
Defined.

Lemma header_elements_kind (W : World) (w : widgets) :
  Forall (fun e => is_header_element W e = true) (header_elements W w).
Proof.
  unfold header_elements. repeat (apply List.Forall_app; split).
  - repeat constructor.
  - destruct (uploaded_image w) as [f|]; [| constructor].
    destruct (Image_open W (file_data f)); repeat constructor.
  - repeat constructor.
Qed.

Lemma history_elements_kind (W : World) (l : list record) (idx : N) :
  Forall (fun e => is_history_element W e = true) (history_elements W idx l).
Proof.
  revert idx. induction l as [|[[[p b] r] ts] l IH]; intros idx;
    cbn [history_elements]; [constructor |].
  apply List.Forall_app. split; [| apply IH].
  unfold convo_elements. repeat (apply List.Forall_app; split).
  - repeat constructor.
  - destruct b as [[|c b]|]; try constructor.
    destruct (decode_stored W (c :: b)); repeat constructor.
  - repeat constructor.
Qed.

Lemma sidebar_elements_no_warning (W : World) (w : widgets) (t : table) (s : str) :
  ~ In (WarningBox W s) (sidebar_elements W w t).
Proof.
  unfold sidebar_elements, load_all_elements. intros Hin.
  apply in_app_or in Hin. destruct Hin as [[Hin | [Hin | []]] | Hin];
    try discriminate Hin.
  destruct (load_all_clicked w); [| contradiction].
  destruct (select_desc t) as [|convo rest].
  - destruct Hin as [Hin | []]. discriminate Hin.
  - pose proof (history_elements_kind W (convo :: rest) 1) as Hk.
    rewrite List.Forall_forall in Hk. apply Hk in Hin. discriminate Hin.
Qed.

Lemma header_elements_no (W : World) (w : widgets) (e : element W) :
  is_header_element W e = false -> ~ In e (header_elements W w).
Proof.
  intros He Hin. pose proof (header_elements_kind W w) as Hk.
  rewrite List.Forall_forall in Hk. apply Hk in Hin. congruence.
Qed.

(** X12: when the upload opens but cannot be written as PNG, the rerun of
    a Send ends with the writer's exception: its text has been drawn as the
    response after [Error: ], no request has been sent, the table is as it
    was, and the sidebar is not drawn at all. *)
Theorem X12_unencodable_image_aborts_the_rerun (W : World)
    (secrets : option (gmap string str)) (now : datetime) (w : widgets)
    (d : option table) (k : str) (im : Image W) (e : exception) :
  has_key secrets k ->
  send_clicked w = true ->
  opened W (uploaded_image w) = Some im ->
  Image_save_png W im = Raise e ->
  (run W secrets now w d).1 = Exc e
  /\ sent W (run W secrets now w d) = []
  /\ db W (run W secrets now w d).2 = Some (table_of d)
  /\ In (Text W (lit "Error: " ++ exc_str e)) (drawn W (run W secrets now w d))
  /\ ~ In (SidebarHeader W (lit "View Stored Conversations"))
         (drawn W (run W secrets now w d)).
Proof.
  intros Hk Hsend Hopened Hsave.
  assert (Hacc : accepted W w = true).
  { unfold accepted. rewrite Hopened. apply orb_true_r. }
  assert (Henc : encode_optional W (opened W (uploaded_image w)) = Raise e).
  { rewrite Hopened. cbn. rewrite encode_image_to_base64_eq, Hsave. reflexivity. }
  rewrite (run_encode_error W secrets now w d k e Hk Hsend Hacc Henc).
  unfold sent, drawn. cbn [fst snd db ui api rev].
  rewrite rev_involutive. repeat split.
  - rewrite <- !app_assoc. apply in_or_app. right. cbn. tauto.
  - intros Hin. rewrite <- !app_assoc in Hin.
    apply in_app_or in Hin. destruct Hin as [Hin | Hin].
    + now apply header_elements_no in Hin.
    + destruct Hin as [Hin | [Hin | [Hin | []]]]; discriminate Hin.
Qed.

Lemma X12_unencodable_image_witness :
  opened (toy_world true) (uploaded_image cmyk_submission)
  = Some (mkToyImage CMYK Byte.x01 Byte.x01
            [Byte.x10; Byte.x20; Byte.x30; Byte.x40])
  /\ (run (toy_world true) toy_secrets toy_now cmyk_submission toy_db1).1
     = Exc (mkException "OSError" (lit "cannot write mode CMYK as PNG"))
  /\ sent (toy_world true)
       (run (toy_world true) toy_secrets toy_now cmyk_submission toy_db1) = []
  /\ db (toy_world true)
       (run (toy_world true) toy_secrets toy_now cmyk_submission toy_db1).2
     = Some (table_of toy_db1)
  /\ In (Text (toy_world true)
           (lit "Error: "
            ++ exc_str (mkException "OSError"
                          (lit "cannot write mode CMYK as PNG"))))
        (drawn (toy_world true)
           (run (toy_world true) toy_secrets toy_now cmyk_submission toy_db1))
  /\ ~ In (SidebarHeader (toy_world true) (lit "View Stored Conversations"))
         (drawn (toy_world true)
            (run (toy_world true) toy_secrets toy_now cmyk_submission toy_db1)).
Proof.
  split; [reflexivity |].
  exact (X12_unencodable_image_aborts_the_rerun (toy_world true) toy_secrets
           toy_now cmyk_submission toy_db1 (lit "sk-test") _ _
           toy_has_key eq_refl eq_refl eq_refl).
Defined.

(** X13: with Send clicked, the warning is drawn exactly when the prompt is
    empty or white space only and there is no image (nothing uploaded, or
    an upload that could not be opened). *)
Theorem X13_warning_iff_nothing_to_send (W : World)
    (secrets : option (gmap string str)) (now : datetime) (w : widgets)
    (d : option table) (k : str) :
  has_key secrets k ->
  send_clicked w = true ->
  In (WarningBox W (lit "Please provide a prompt or an image."))
     (drawn W (run W secrets now w d))
  <-> blank (prompt_text w) /\ opened W (uploaded_image w) = None.
Proof.
  intros Hk Hsend. rewrite <- accepted_false.
  destruct (accepted W w) eqn:Hacc.
  - split; [| discriminate]. intros Hin. exfalso.
    destruct (encode_optional W (opened W (uploaded_image w))) as [b|e] eqn:Henc.
    + rewrite (drawn_submitted W secrets now w d k b Hk Hsend Hacc Henc) in Hin.
      apply in_app_or in Hin. destruct Hin as [Hin | Hin];
        [now apply header_elements_no in Hin |].
      apply in_app_or in Hin. destruct Hin as [Hin | Hin].
      * destruct Hin as [Hin | [Hin | [Hin | []]]]; discriminate Hin.
      * now apply sidebar_elements_no_warning in Hin.
    + unfold drawn in Hin.
      rewrite (run_encode_error W secrets now w d k e Hk Hsend Hacc Henc) in Hin.
      cbn [snd ui rev] in Hin. rewrite rev_involutive, <- !app_assoc in Hin.
      apply in_app_or in Hin. destruct Hin as [Hin | Hin];
        [now apply header_elements_no in Hin |].
      destruct Hin as [Hin | [Hin | [Hin | []]]]; discriminate Hin.
  - split; [reflexivity |]. intros _.
    rewrite (drawn_not_submitted W secrets now w d k Hk)
      by (rewrite Hsend, Hacc; reflexivity).
    rewrite Hsend. apply in_or_app. right. now left.
Qed.

Lemma X13_warning_witness :
  send_clicked blank_submission = true
  /\ (In (WarningBox (toy_world true) (lit "Please provide a prompt or an image."))
         (drawn (toy_world true)
            (run (toy_world true) toy_secrets toy_now blank_submission None))
      <-> blank (prompt_text blank_submission)
          /\ opened (toy_world true) (uploaded_image blank_submission) = None).
Proof.
  split; [reflexivity |].
  apply (X13_warning_iff_nothing_to_send (toy_world true) toy_secrets toy_now
           blank_submission None (lit "sk-test")).
  - apply toy_has_key.
  - reflexivity.
Defined.

(** The largest rowid of consecutive rowids. *)
Lemma max_rowid_nonneg (l : list row) : (0 <= max_rowid l)%Z.
Proof.
  induction l as [|r l IH]; [cbn; lia |].
  change (max_rowid (r :: l)) with (Z.max (id r) (max_rowid l)). lia.
Qed.

Lemma max_rowid_consecutive (l : list row) (a n : nat) :
  (1 <= a)%nat ->
  map id l = map Z.of_nat (seq a n) ->
  (max_rowid l <= Z.of_nat (a + n) - 1)%Z.
Proof.
  revert l a. induction n as [|n IH]; intros l a Ha Hl.
  - destruct l; [cbn; lia | discriminate].
  - destruct l as [|r l]; [discriminate |]. cbn [seq map] in Hl.
    injection Hl as Hr Hl.
    change (max_rowid (r :: l)) with (Z.max (id r) (max_rowid l)).
    specialize (IH l (S a) ltac:(lia) Hl). lia.
Qed.

Lemma consecutive_insert_row (t : table) (p b r ts : option str) :
  map id (rows t) = map Z.of_nat (seq 1 (length (rows t))) ->
  sqlite_sequence t = Z.of_nat (length (rows t)) ->
  map id (rows (insert_row t p b r ts))
  = map Z.of_nat (seq 1 (length (rows (insert_row t p b r ts))))
  /\ sqlite_sequence (insert_row t p b r ts)
     = Z.of_nat (length (rows (insert_row t p b r ts))).
Proof.
  intros Hids Hseq.
  assert (Hnext : next_rowid t = Z.of_nat (S (length (rows t)))).
  { unfold next_rowid.
    pose proof (max_rowid_consecutive _ _ _ (le_n 1) Hids).
    pose proof (max_rowid_nonneg (rows t)). lia. }
  cbn [insert_row rows sqlite_sequence].
  rewrite length_app, Nat.add_1_r, seq_S, !map_app, Hnext, <- Hids.
  cbn [length map id Nat.add]. split; reflexivity.
Qed.

(** X14: in every state the script can reach from a file without the
    table, the rowids are 1, 2, ..., n in insertion order and the sequence
    counter equals the number of rows: no rowid is skipped or reused. *)
Theorem X14_rowids_are_consecutive (W : World) (d : option table) :
  reachable W d ->
  map id (rows_of d) = map Z.of_nat (seq 1 (length (rows_of d)))
  /\ sqlite_sequence (table_of d) = Z.of_nat (length (rows_of d)).
Proof.
  rewrite <- rows_table_of.
  induction 1 as [|secrets now w d Hd IH]; [split; reflexivity |].
  destruct (run_db_cases W secrets now w d) as [-> | [-> | (p & b & r & ->)]];
    cbn [table_of]; [exact IH | exact IH |].
  now apply consecutive_insert_row.
Qed.

Lemma X14_rowids_witness :
  map id (rows_of toy_db2) = [1; 2]%Z
  /\ map id (rows_of toy_db2)
     = map Z.of_nat (seq 1 (length (rows_of toy_db2)))
  /\ sqlite_sequence (table_of toy_db2) = Z.of_nat (length (rows_of toy_db2)).
Proof.
  split; [reflexivity |].
  apply (X14_rowids_are_consecutive (toy_world true) toy_db2).
  exact (reachable_run (toy_world true) toy_secrets toy_now grey_submission _
           (reachable_run (toy_world true) toy_secrets toy_now text_submission _
              (reachable_fresh (toy_world true)))).
Defined.

(** Zero-padded decimal fields. *)
Lemma zfill_digits (w : nat) (bound : nat) :
  forallb (fun i => let s := zfill w (str_of_N (N.of_nat i)) in
                    (length s =? w)%nat && forallb isdigit s)
          (seq 0 bound) = true ->
  forall n, n < N.of_nat bound ->
    length (zfill w (str_of_N n)) = w
    /\ forallb isdigit (zfill w (str_of_N n)) = true.
Proof.
  intros Hall n Hn. rewrite forallb_forall in Hall.
  specialize (Hall (N.to_nat n)). rewrite N2Nat.id in Hall.
  cbv zeta in Hall. rewrite andb_true_iff, Nat.eqb_eq in Hall.
  apply Hall. apply in_seq. lia.
Qed.

Lemma two_digits (n : N) :
  n < 100 ->
  exists a b, zfill 2 (str_of_N n) = [a; b]
              /\ isdigit a = true /\ isdigit b = true.
Proof.
  intros Hn.
  assert (Hall : forallb (fun i => let s := zfill 2 (str_of_N (N.of_nat i)) in
                                  (length s =? 2)%nat && forallb isdigit s)
                         (seq 0 100) = true) by (vm_compute; reflexivity).
  destruct (zfill_digits 2 100 Hall n Hn) as [Hlen Hdig].
  destruct (zfill 2 (str_of_N n)) as [|a [|b [|c s]]]; try discriminate Hlen.
  exists a, b. cbn [forallb] in Hdig. rewrite !andb_true_iff in Hdig.
  repeat split; tauto.
Qed.

Lemma four_digits (n : N) :
  n < 10000 ->
  exists a b c d, zfill 4 (str_of_N n) = [a; b; c; d]
                  /\ isdigit a = true /\ isdigit b = true
                  /\ isdigit c = true /\ isdigit d = true.
Proof.
  intros Hn.
  assert (Hall : forallb (fun i => let s := zfill 4 (str_of_N (N.of_nat i)) in
                                  (length s =? 4)%nat && forallb isdigit s)
                         (seq 0 (100 * 100)) = true) by (vm_compute; reflexivity).
  destruct (zfill_digits 4 (100 * 100) Hall n ltac:(lia)) as [Hlen Hdig].
  destruct (zfill 4 (str_of_N n)) as [|a [|b [|c [|d [|e s]]]]];
    try discriminate Hlen.
  exists a, b, c, d. cbn [forallb] in Hdig. rewrite !andb_true_iff in Hdig.
  repeat split; tauto.
Qed.

Lemma strftime_is_timestamp (now : datetime) :
  datetime_ok now -> is_timestamp (strftime now) = true.
Proof.
  intros (Hy & Hmo & Hd & Hh & Hmi & Hs). unfold strftime.
  assert (By : year now < 10000) by lia. assert (Bmo : month now < 100) by lia.
  assert (Bd : day now < 100) by lia. assert (Bh : hour now < 100) by lia.
  assert (Bmi : minute now < 100) by lia. assert (Bs : second now < 100) by lia.
  clear Hy Hmo Hd Hh Hmi Hs.
  destruct (four_digits (year now) By) as (y1 & y2 & y3 & y4 & -> & ? & ? & ? & ?).
  destruct (two_digits (month now) Bmo) as (m1 & m2 & -> & ? & ?).
  destruct (two_digits (day now) Bd) as (d1 & d2 & -> & ? & ?).
  destruct (two_digits (hour now) Bh) as (h1 & h2 & -> & ? & ?).
  destruct (two_digits (minute now) Bmi) as (n1 & n2 & -> & ? & ?).
  destruct (two_digits (second now) Bs) as (c1 & c2 & -> & ? & ?).
  change (lit "-") with [45]. change (lit " ") with [32].
  change (lit ":") with [58].
  change (is_timestamp [y1; y2; y3; y4; 45; m1; m2; 45; d1; d2; 32; h1; h2; 58;
                        n1; n2; 58; c1; c2] = true).
  unfold is_timestamp. cbn [forallb].
  repeat match goal with H : isdigit _ = true |- _ => rewrite H; clear H end.
  reflexivity.
Qed.

Lemma is_timestamp_length (ts : str) : is_timestamp ts = true -> length ts = 19%nat.
Proof.
  unfold is_timestamp.
  do 19 (destruct ts as [|? ts]; [discriminate |]).
  destruct ts; [reflexivity | discriminate].
Qed.

(** X15: for a clock reading in the years 1000 to 9999, the row that
    [save_conversation] appends carries a time stamp of the fixed shape
    [YYYY-MM-DD HH:MM:SS]: nineteen characters, digits with zero padding
    and the separators in place. *)
Theorem X15_saved_timestamp_has_fixed_shape (W : World) (now : datetime)
    (prompt : str) (image : option str) (response : str) (t : table)
    (u : list (element W)) (a : list (str * request)) :
  datetime_ok now ->
  exists ts,
    save_conversation W now prompt image response (mkState W (Some t) u a)
    = (Ret tt,
       mkState W
         (Some (mkTable
                  (rows t
                   ++ [mkRow (next_rowid t) (Some prompt) image (Some response)
                         (Some ts)])
                  (next_rowid t)))
         u a)
    /\ is_timestamp ts = true
    /\ length ts = 19%nat.
Proof.
  intros Hok. exists (strftime now).
  pose proof (strftime_is_timestamp now Hok) as Hts.
  split; [reflexivity |]. split; [exact Hts |].
  now apply is_timestamp_length.
Qed.

Lemma X15_saved_timestamp_witness :
  datetime_ok toy_now
  /\ exists ts,
      save_conversation (toy_world true) toy_now (lit "Hello?") None
        (lit "Hello!") (mkState (toy_world true) (Some empty_table) [] [])
      = (Ret tt,
         mkState (toy_world true)
           (Some (mkTable
                    (rows empty_table
                     ++ [mkRow (next_rowid empty_table) (Some (lit "Hello?"))
                           None (Some (lit "Hello!")) (Some ts)])
                    (next_rowid empty_table)))
           [] [])
      /\ is_timestamp ts = true
      /\ length ts = 19%nat.
Proof.
  assert (Hok : datetime_ok toy_now) by (unfold datetime_ok; cbn; lia).
  split; [exact Hok |].
  exact (X15_saved_timestamp_has_fixed_shape (toy_world true) toy_now
           (lit "Hello?") None (lit "Hello!") empty_table [] [] Hok).
Defined.

(** X16: a request that a rerun sent is the only one it sent, and the rerun
    appended exactly one row for it, holding the prompt as typed and the
    time stamp of the rerun under a fresh rowid. *)
Theorem X16_every_request_leaves_a_row (W : World)
    (secrets : option (gmap string str)) (now : datetime) (w : widgets)
    (d : option table) (key : str) (req : request) :
  In (key, req) (sent W (run W secrets now w d)) ->
  sent W (run W secrets now w d) = [(key, req)]
  /\ exists r,
      rows_of (db W (run W secrets now w d).2) = rows_of d ++ [r]
      /\ id r = next_rowid (table_of d)
      /\ user_prompt r = Some (prompt_text w)
      /\ timestamp r = Some (strftime now).
Proof.
  intros Hsent.
  destruct (run_sent_inv W secrets now w d key req Hsent) as (b & _ & _ & Hrun).
  rewrite Hrun. unfold sent. cbn [snd db api rev app rows_of insert_row rows].
  rewrite rows_table_of. split; [reflexivity |].
  eexists. split; [reflexivity |]. repeat split.
Qed.

Lemma X16_every_request_witness :
  In (lit "sk-test", build_request (lit "Hello?") None)
     (sent (toy_world true)
        (run (toy_world true) toy_secrets toy_now text_submission None))
  /\ sent (toy_world true)
       (run (toy_world true) toy_secrets toy_now text_submission None)
     = [(lit "sk-test", build_request (lit "Hello?") None)]
  /\ exists r,
      rows_of
        (db (toy_world true)
           (run (toy_world true) toy_secrets toy_now text_submission None).2)
      = rows_of None ++ [r]
      /\ id r = next_rowid (table_of None)
      /\ user_prompt r = Some (prompt_text text_submission)
      /\ timestamp r = Some (strftime toy_now).
Proof.
  assert (Hsent : In (lit "sk-test", build_request (lit "Hello?") None)
            (sent (toy_world true)
               (run (toy_world true) toy_secrets toy_now text_submission None)))
    by (vm_compute; tauto).
  split; [exact Hsent |].
  exact (X16_every_request_leaves_a_row (toy_world true) toy_secrets toy_now
           text_submission None (lit "sk-test")
           (build_request (lit "Hello?") None) Hsent).
Defined.

(** X17: a submission with a prompt that is not blank and no image
    (nothing uploaded, or an upload that could not be opened) sends one
    request whose only content part is the prompt as typed, and appends one
    row whose image column is NULL. *)
Theorem X17_text_only_submission (W : World)
    (secrets : option (gmap string str)) (now : datetime) (w : widgets)
    (d : option table) (k : str) :
  has_key secrets k ->
  send_clicked w = true ->
  ~ blank (prompt_text w) ->
  opened W (uploaded_image w) = None ->
  (run W secrets now w d).1 = Ret tt
  /\ sent W (run W secrets now w d)
     = [(k, mkRequest (lit "gpt-4o-mini")
              [mkMessage (lit "user") [TextPart (prompt_text w)]] 300)]
  /\ exists r,
      rows_of (db W (run W secrets now w d).2)
      = rows_of d
        ++ [mkRow (next_rowid (table_of d)) (Some (prompt_text w)) None
              (Some r) (Some (strftime now))].
Proof.
  intros Hk Hsend Hprompt Hnone.
  assert (Hacc : accepted W w = true).
  { destruct (accepted W w) eqn:E; [reflexivity |].
    apply accepted_false in E. tauto. }
  assert (Henc : encode_optional W (opened W (uploaded_image w)) = Ok None)
    by now rewrite Hnone.
  pose proof (run_submitted W secrets now w d k None Hk Hsend Hacc Henc) as Hrun.
  cbv zeta in Hrun. rewrite Hrun. unfold sent.
  cbn [fst snd db api rev app rows_of insert_row rows].
  rewrite rows_table_of. repeat split. eexists. reflexivity.
Qed.

Lemma X17_text_only_witness :
  ~ blank (prompt_text text_submission)
  /\ (run (toy_world true) toy_secrets toy_now text_submission None).1 = Ret tt
  /\ sent (toy_world true)
       (run (toy_world true) toy_secrets toy_now text_submission None)
     = [(lit "sk-test",
         mkRequest (lit "gpt-4o-mini")
           [mkMessage (lit "user") [TextPart (prompt_text text_submission)]]
           300)]
  /\ exists r,
      rows_of
        (db (toy_world true)
           (run (toy_world true) toy_secrets toy_now text_submission None).2)
      = rows_of None
        ++ [mkRow (next_rowid (table_of None))
              (Some (prompt_text text_submission)) None (Some r)
              (Some (strftime toy_now))].
Proof.
  assert (Hprompt : ~ blank (prompt_text text_submission)).
  { intros H. inversion H as [|c s Hc _]. discriminate Hc. }
  split; [exact Hprompt |].
  exact (X17_text_only_submission (toy_world true) toy_secrets toy_now
           text_submission None (lit "sk-test") toy_has_key eq_refl Hprompt
           eq_refl).
Defined.
